(** * datajoint-babel: the table-definition grammar model

    A shallow embedding of [datajoint_babel/model/attribute.py],
    [datajoint_babel/model/table.py], [datajoint_babel/constants.py] and
    [datajoint_babel/exceptions.py], followed by theorems about the type
    grammar, the row grammar, the table assembler and the serializer.

    Conventions of the embedding:
    - a Python [str] is a [string]; a character is a code point below 256;
    - a Python [int] is a [Z]: the bound some interpreters put on the number
      of digits [int()] and [str()] convert
      ([sys.set_int_max_str_digits]) is an interpreter setting and is not
      part of the model;
    - a Python call that may raise is a value of [result]: [Ok v] when it
      returns [v], [Raise e] when it raises [e];
    - the library calls the source makes ([str] methods, [parse.parse] on the
      three format strings of the source, [re.match] on the index pattern,
      pydantic's field validation) are written out as functions over
      strings, one per call site's format or pattern;
    - [datajoint.declare.attribute_parser] (a pyparsing grammar of the
      datajoint package) is a parameter of [Attribute.from_string] and of
      [Table.from_definition]. *)

From Stdlib Require Import String Ascii List ZArith Bool Arith Lia.
From Stdlib Require Import DecimalString DecimalPos.
Import ListNotations.
Local Open Scope string_scope.
Local Open Scope bool_scope.

(** ** Exceptions and results *)

Inductive exn : Type :=
| ParseError (msg : string)                 (* exceptions.ParseError *)
| ResolutionError (msg : string)            (* exceptions.ResolutionError *)
| NotImplementedError
| ValueError (msg : string)
| TypeError (msg : string)
| ValidationError (model field : string)    (* pydantic.ValidationError *)
| ParseException (msg : string).            (* pyparsing.ParseException *)

Inductive result (A : Type) : Type :=
| Ok (a : A)
| Raise (e : exn).

Arguments Ok {A} a.
Arguments Raise {A} e.

Definition bind {A B : Type} (c : result A) (k : A -> result B) : result B :=
  match c with
  | Ok a => k a
  | Raise e => Raise e
  end.

Notation "x <- c ;; k" := (bind c (fun x => k))
  (at level 61, c at next level, right associativity).

Definition is_ok {A : Type} (c : result A) : bool :=
  match c with Ok _ => true | Raise _ => false end.

(** ** Python's [str] methods, as far as the source calls them *)

Module PyStr.

(** [c.isspace()]; also the class [\s] of [re] on [str] patterns. *)
Definition isspace (c : ascii) : bool :=
  let n := nat_of_ascii c in
  (((9 <=? n) && (n <=? 13)) || ((28 <=? n) && (n <=? 32))
   || (n =? 133) || (n =? 160))%nat.

Fixpoint lstrip_by (p : ascii -> bool) (s : string) : string :=
  match s with
  | EmptyString => EmptyString
  | String c s' => if p c then lstrip_by p s' else s
  end.

Fixpoint rstrip_by (p : ascii -> bool) (s : string) : string :=
  match s with
  | EmptyString => EmptyString
  | String c s' =>
      match rstrip_by p s' with
      | EmptyString => if p c then EmptyString else String c EmptyString
      | r => String c r
      end
  end.

(** [s.strip()] *)
Definition strip (s : string) : string :=
  rstrip_by isspace (lstrip_by isspace s).

Fixpoint mem (c : ascii) (chars : string) : bool :=
  match chars with
  | EmptyString => false
  | String d chars' => Ascii.eqb c d || mem c chars'
  end.

(** [s.rstrip(chars)]: strips trailing characters that occur in [chars]. *)
Definition rstrip (chars s : string) : string :=
  rstrip_by (fun c => mem c chars) s.

(** [s.startswith(p)] *)
Definition startswith (s p : string) : bool := String.prefix p s.

(** [s.endswith(p)] *)
Fixpoint endswith (s p : string) : bool :=
  String.eqb s p
  || match s with
     | EmptyString => false
     | String _ s' => endswith s' p
     end.

(** [sub in s] *)
Fixpoint contains (sub s : string) : bool :=
  String.prefix sub s
  || match s with
     | EmptyString => false
     | String _ s' => contains sub s'
     end.

(** The pieces of [s] between the occurrences of the separator
    [String c0 rest], found from the left and not overlapping. [skip]
    counts the characters of a separator just found that are still to be
    passed over; [cur] is the piece being read. *)
Fixpoint split_go (c0 : ascii) (rest : string) (skip : nat) (cur s : string)
  : list string :=
  match s with
  | EmptyString => [cur]
  | String c s' =>
      match skip with
      | S k => split_go c0 rest k cur s'
      | O =>
          if String.prefix (String c0 rest) s
          then cur :: split_go c0 rest (String.length rest) EmptyString s'
          else split_go c0 rest 0 (cur ++ String c EmptyString) s'
      end
  end.

(** [s.split(sep)]; an empty separator raises [ValueError]. *)
Definition split (s sep : string) : result (list string) :=
  match sep with
  | EmptyString => Raise (ValueError "empty separator")
  | String c0 rest => Ok (split_go c0 rest 0 EmptyString s)
  end.

(** [sep.join(l)] *)
Definition join (sep : string) (l : list string) : string :=
  String.concat sep l.

Definition lower_char (c : ascii) : ascii :=
  let n := nat_of_ascii c in
  if (((65 <=? n) && (n <=? 90))
      || ((192 <=? n) && (n <=? 222) && negb (n =? 215)))%nat
  then ascii_of_nat (n + 32)
  else c.

(** [s.lower()] *)
Fixpoint lower (s : string) : string :=
  match s with
  | EmptyString => EmptyString
  | String c s' => String (lower_char c) (lower s')
  end.

(** The rest of [s] after the prefix [p], when [s] starts with [p]. *)
Fixpoint strip_prefix (p s : string) : option string :=
  match p, s with
  | EmptyString, _ => Some s
  | String a p', String b s' =>
      if Ascii.eqb a b then strip_prefix p' s' else None
  | String _ _, EmptyString => None
  end.

(** [s] without its last character, when that character is [c]. *)
Fixpoint strip_last (c : ascii) (s : string) : option string :=
  match s with
  | EmptyString => None
  | String d EmptyString =>
      if Ascii.eqb d c then Some EmptyString else None
  | String d s' => option_map (String d) (strip_last c s')
  end.

(** [str(z)] for an [int] *)
Definition str_int (z : Z) : string :=
  NilZero.string_of_int (Z.to_int z).

Definition is_digit (c : ascii) : bool :=
  let n := nat_of_ascii c in ((48 <=? n) && (n <=? 57))%nat.

Definition digit_val (c : ascii) : Z := Z.of_nat (nat_of_ascii c - 48).

(** Digits with single underscores between them, as [int()] reads them:
    [prev] tells whether the character before was a digit. *)
Fixpoint digits_go (prev : bool) (acc : Z) (s : string) : option Z :=
  match s with
  | EmptyString => if prev then Some acc else None
  | String c s' =>
      if is_digit c then digits_go true (10 * acc + digit_val c)%Z s'
      else if Ascii.eqb c "_" && prev then digits_go false acc s'
      else None
  end.

(** The whitespace [int()] skips around a number: the ASCII whitespace
    of C, tab to carriage return and the space, and the whitespace above
    127; not the separators 28 to 31, which [str.strip()] strips and
    [int()] refuses. *)
Definition int_isspace (c : ascii) : bool :=
  let n := nat_of_ascii c in
  (((9 <=? n) && (n <=? 13)) || (n =? 32) || (n =? 133) || (n =? 160))%nat.

(** [int(s)] for a [str]: surrounding whitespace, an optional sign, then
    decimal digits. [None] stands for [ValueError]. *)
Definition int_of_str (s : string) : option Z :=
  match rstrip_by int_isspace (lstrip_by int_isspace s) with
  | String "-" d => option_map Z.opp (digits_go false 0%Z d)
  | String "+" d => digits_go false 0%Z d
  | d => digits_go false 0%Z d
  end.

Definition hex_digit (n : nat) : ascii :=
  if (n <? 10)%nat then ascii_of_nat (48 + n) else ascii_of_nat (87 + n).

(** Whether [repr] prints the character as it is. *)
Definition isprintable (c : ascii) : bool :=
  let n := nat_of_ascii c in
  (((32 <=? n) && (n <=? 126)) || ((161 <=? n) && negb (n =? 173)))%nat.

Definition repr_char (quote : ascii) (c : ascii) : string :=
  let n := nat_of_ascii c in
  if Ascii.eqb c "\" then "\\"
  else if Ascii.eqb c quote then String "\" (String quote EmptyString)
  else if (n =? 9)%nat then "\t"
  else if (n =? 10)%nat then "\n"
  else if (n =? 13)%nat then "\r"
  else if isprintable c then String c EmptyString
  else String "\" (String "x"
         (String (hex_digit (n / 16))
            (String (hex_digit (n mod 16)) EmptyString))).

Fixpoint repr_body (quote : ascii) (s : string) : string :=
  match s with
  | EmptyString => EmptyString
  | String c s' => repr_char quote c ++ repr_body quote s'
  end.

(** [repr(s)] for a [str]: single quotes, unless [s] has a single quote
    and no double quote. *)
Definition repr_str (s : string) : string :=
  let quote : ascii :=
    if mem "'" s && negb (mem "034" s) then "034"%char else "'"%char in
  String quote (repr_body quote s ++ String quote EmptyString).

(** [str(l)] for a list whose items print as [items]. *)
Definition str_list (items : list string) : string :=
  "[" ++ join ", " items ++ "]".

End PyStr.

(** ** The [parse] library on the format strings of the source

    [parse.parse(format, input)] compiles [format] to a regular expression
    in which a field without a type is the lazy group [(.+?)], literal text
    stands for itself, [.] also matches a newline, and the whole input has to
    match. [None] is the [None] that [parse.parse] returns when it does not. *)

Module Parse.

Definition nonempty (s : string) : option string :=
  match s with
  | EmptyString => None
  | _ => Some s
  end.

(** [parse.parse("# {comment}", input)]: the value of [comment]. *)
Definition comment_format : string := "# {comment}".

Definition parse_comment (input : string) : option string :=
  match PyStr.strip_prefix "# " input with
  | Some rest => nonempty rest
  | None => None
  end.

(** [parse.parse("-> {dependency}", input)]: the value of [dependency]. *)
Definition dependency_format : string := "-> {dependency}".

Definition parse_dependency (input : string) : option string :=
  match PyStr.strip_prefix "-> " input with
  | Some rest => nonempty rest
  | None => None
  end.

(** [parse.parse("{datatype}({args})", input)]: the values of [datatype]
    and [args]. The lazy [datatype] ends at the first opening parenthesis,
    after at least one character, from which the rest is a non-empty
    [args] and the closing parenthesis that ends the input. *)
Definition parameterized_format : string := "{datatype}({args})".

Definition args_at (s : string) : option string :=
  match PyStr.strip_last ")" s with
  | Some a => nonempty a
  | None => None
  end.

Fixpoint parameterized_go (datatype s : string) : option (string * string) :=
  match s with
  | EmptyString => None
  | String c s' =>
      if Ascii.eqb c "("
      then match args_at s' with
           | Some args => Some (datatype, args)
           | None => parameterized_go (datatype ++ String c EmptyString) s'
           end
      else parameterized_go (datatype ++ String c EmptyString) s'
  end.

Definition parse_parameterized (input : string) : option (string * string) :=
  match input with
  | EmptyString => None
  | String c s => parameterized_go (String c EmptyString) s
  end.

End Parse.

(** ** The index pattern of [Attribute.from_string]

    [re.match(r"^(unique\s+)?index[^:]*$", input, re.I)]: an optional
    [unique] and whitespace, then [index], in any letter case, and no colon
    after it. *)

Module Re.

(** The rest of [s] after [p], letter case ignored. *)
Fixpoint strip_prefix_ci (p s : string) : option string :=
  match p, s with
  | EmptyString, _ => Some s
  | String a p', String b s' =>
      if Ascii.eqb (PyStr.lower_char a) (PyStr.lower_char b)
      then strip_prefix_ci p' s'
      else None
  | String _ _, EmptyString => None
  end.

(** [index[^:]*$] at the start of [s] *)
Definition index_tail (s : string) : bool :=
  match strip_prefix_ci "index" s with
  | Some rest => negb (PyStr.mem ":" rest)
  | None => false
  end.

(** [unique\s+index[^:]*$] at the start of [s] *)
Definition unique_index_tail (s : string) : bool :=
  match strip_prefix_ci "unique" s with
  | Some (String c rest) =>
      PyStr.isspace c && index_tail (PyStr.lstrip_by PyStr.isspace rest)
  | _ => false
  end.

Definition match_index (input : string) : bool :=
  unique_index_tail input || index_tail input.

End Re.

(** ** constants.py *)

Definition DATATYPES : list string :=
  [ "tinyint"; "smallint"; "mediumint"; "int"; "enum"; "date"; "time";
    "datetime"; "timestamp"; "char"; "varchar"; "float"; "double"; "decimal";
    "blob"; "tinyblob"; "mediumblob"; "longblob"; "attach"; "filepath" ].

Definition TIERS : list string :=
  [ "Manual"; "Lookup"; "Imported"; "Computed" ].

(** Membership in a [Literal[...]] of strings. *)
Definition literal_mem (v : string) (choices : list string) : bool :=
  existsb (String.eqb v) choices.

(** ** exceptions.py *)

(** [ParseError.format_raise(format, input)] raises this exception. *)
Definition format_raise {A : Type} (format input : string) : result A :=
  Raise (ParseError
    ("Could not parse table row." ++ String "010" EmptyString
     ++ "Expected Format: " ++ format ++ String "010" EmptyString
     ++ "Got String: " ++ input)).

(** ** model/attribute.py *)

(** The value of the field [args] of a [DJ_Type], declared
    [Optional[Union[int, List[int], List[str]]]]; [None] is [None]. *)
Inductive Args : Type :=
| ArgInt (n : Z)
| ArgInts (l : list Z)
| ArgStrs (l : list string).

(** What [DJ_Type.from_string] passes for [args]: [None], a [str], or the
    list of [str] that [args.split(',')] returns. *)
Inductive RawArgs : Type :=
| RawNone
| RawStr (s : string)
| RawList (l : list string).

(** All the [int(s)] of a list, when every one of them succeeds. *)
Fixpoint ints_of_strs (l : list string) : option (list Z) :=
  match l with
  | [] => Some []
  | s :: l' =>
      match PyStr.int_of_str s, ints_of_strs l' with
      | Some n, Some ns => Some (n :: ns)
      | _, _ => None
      end
  end.

(** pydantic's validation of [args] (pydantic 1, which the code was
    written against): the members of the [Union] are tried from the left,
    and the first that accepts the value gives the field. A
    [str] is accepted by [int] when [int(s)] succeeds and by no list type;
    a list of [str] is accepted by [List[int]] when every item is, and by
    [List[str]] otherwise. [None] stands for a validation error. *)
Definition validate_args (raw : RawArgs) : option (option Args) :=
  match raw with
  | RawNone => Some None
  | RawStr s =>
      match PyStr.int_of_str s with
      | Some n => Some (Some (ArgInt n))
      | None => None
      end
  | RawList l =>
      match ints_of_strs l with
      | Some ns => Some (Some (ArgInts ns))
      | None => Some (Some (ArgStrs l))
      end
  end.

(** [if self.args:] *)
Definition args_truthy (a : option Args) : bool :=
  match a with
  | None => false
  | Some (ArgInt n) => negb (n =? 0)%Z
  | Some (ArgInts l) => negb (Nat.eqb (List.length l) 0)
  | Some (ArgStrs l) => negb (Nat.eqb (List.length l) 0)
  end.

(** [str(self.args)] *)
Definition str_args (a : Args) : string :=
  match a with
  | ArgInt n => PyStr.str_int n
  | ArgInts l => PyStr.str_list (map PyStr.str_int l)
  | ArgStrs l => PyStr.str_list (map PyStr.repr_str l)
  end.

(** [[str(a) for a in self.args]] for a list *)
Definition str_items (a : Args) : list string :=
  match a with
  | ArgInt n => [PyStr.str_int n]
  | ArgInts l => map PyStr.str_int l
  | ArgStrs l => l
  end.

Definition is_list (a : Args) : bool :=
  match a with
  | ArgInt _ => false
  | _ => true
  end.

Module Comment.

Record t : Type := Build { comment : string }.

Definition make (self : t) : string :=
  PyStr.join " " ["#"; comment self].

Definition from_string (input : string) : result t :=
  match Parse.parse_comment input with
  | None => format_raise Parse.comment_format input
  | Some c => Ok (Build c)
  end.

End Comment.

Module DJ_Type.

Record t : Type := Build {
  datatype : string;
  args : option Args;
  unsigned : bool
}.

(** [cls(datatype=..., args=..., unsigned=...)]: pydantic validates
    [datatype] against [DATATYPES] and [args] against its [Union]. *)
Definition init (datatype : string) (raw : RawArgs) (unsigned : bool)
  : result t :=
  if literal_mem datatype DATATYPES
  then match validate_args raw with
       | Some a => Ok (Build datatype a unsigned)
       | None => Raise (ValidationError "DJ_Type" "args")
       end
  else Raise (ValidationError "DJ_Type" "datatype").

Definition make (self : t) : string :=
  let typestr := datatype self in
  let typestr :=
    match args self with
    | Some a =>
        if args_truthy (args self)
        then if String.eqb (datatype self) "filepath"
             then typestr ++ "@" ++ str_args a
             else if is_list a
             then typestr ++ "(" ++ PyStr.join "," (str_items a) ++ ")"
             else typestr ++ "(" ++ str_args a ++ ")"
        else typestr
    | None => typestr
    end in
  if unsigned self then typestr ++ " unsigned" else typestr.

Definition from_string (input : string) : result t :=
  let unsigned := PyStr.contains "unsigned" input in
  let input := if unsigned then PyStr.rstrip " unsigned" input else input in
  if PyStr.contains "@" input
  then
    (* filepath *)
    parts <- PyStr.split "@" input ;;
    match parts with
    | [datatype; args] => init datatype (RawStr args) false
    | [] =>
        Raise (ValueError "not enough values to unpack (expected 2, got 0)")
    | [_] =>
        Raise (ValueError "not enough values to unpack (expected 2, got 1)")
    | _ => Raise (ValueError "too many values to unpack (expected 2)")
    end
  else
    let input := PyStr.strip input in
    match Parse.parse_parameterized input with
    | None => init input RawNone unsigned
    | Some (datatype, args) =>
        if PyStr.contains "," args
        then parts <- PyStr.split args "," ;;
             init datatype (RawList parts) unsigned
        else init datatype (RawStr args) unsigned
    end.

End DJ_Type.

(** What [attribute_parser.parseString] returns, as far as
    [Attribute.from_string] reads it: the named results [name], [type] and
    [comment], and [default] when the line has one. *)
Record Pieces : Type := {
  piece_name : string;
  piece_type : string;
  piece_default : option string;
  piece_comment : string
}.

Module Attribute.

Record t : Type := Build {
  name : string;
  datatype : DJ_Type.t;
  comment : option string;
  default : option string
}.

(** [if self.comment], [if self.default] *)
Definition truthy (o : option string) : bool :=
  match o with
  | Some (String _ _) => true
  | _ => false
  end.

Definition text (o : option string) : string :=
  match o with
  | Some s => s
  | None => "None"
  end.

Definition make (self : t) : string :=
  if truthy (comment self) && truthy (default self)
  then name self ++ " = " ++ text (default self) ++ " : "
       ++ DJ_Type.make (datatype self) ++ " # " ++ text (comment self)
  else if truthy (comment self)
  then name self ++ " : " ++ DJ_Type.make (datatype self)
       ++ " # " ++ text (comment self)
  else if truthy (default self)
  then name self ++ " = " ++ text (default self) ++ " : "
       ++ DJ_Type.make (datatype self)
  else name self ++ " : " ++ DJ_Type.make (datatype self).

Definition from_string (attribute_parser : string -> result Pieces)
  (input : string) : result t :=
  if Re.match_index input
  then Raise NotImplementedError
  else
    pieces <- attribute_parser (input ++ "#") ;;
    let comment := PyStr.strip (PyStr.rstrip "#" (piece_comment pieces)) in
    datatype <- DJ_Type.from_string (piece_type pieces) ;;
    Ok (Build (piece_name pieces) datatype (Some comment)
          (piece_default pieces)).

End Attribute.

(** A table class as [spawn_all_schema] returns it, as far as
    [Dependency.resolve_keys] reads it: its [__name__] and its
    [primary_key]. *)
Record TableMeta : Type := {
  class_name : string;
  primary_key : list string
}.

Module Dependency.

Record t : Type := Build { dependency : string }.

Definition make (self : t) : string := "-> " ++ dependency self.

Definition from_string (input : string) : result t :=
  match Parse.parse_dependency input with
  | None => format_raise Parse.dependency_format input
  | Some d => Ok (Build d)
  end.

(** [resolve_keys]: [spawn_all_schema], which asks a live connection for
    the classes of every schema (spawn.py), is a parameter: the list it
    returns, or the exception it raises. *)
Definition resolve_keys (spawn_all_schema : result (list TableMeta))
  (self : t) : result (list string) :=
  schema <- spawn_all_schema ;;
  let ours :=
    filter (fun sch => String.eqb (class_name sch) (dependency self)) schema in
  match ours with
  | [] =>
      Raise (ResolutionError
               ("Could not resolve dependent schema " ++ dependency self))
  | sch :: _ => Ok (primary_key sch)
  end.

End Dependency.

(** ** model/table.py *)

Definition LF : string := String "010" EmptyString.

(** Three double quotes, the delimiter of a Python docstring. *)
Definition triple_quote : string :=
  String "034" (String "034" (String "034" EmptyString)).

Module Table.

(** [Union[Attribute, Dependency]] *)
Inductive Row : Type :=
| RowAttribute (a : Attribute.t)
| RowDependency (d : Dependency.t).

Record t : Type := Build {
  name : string;
  tier : string;
  comment : option Comment.t;
  keys : list Row;
  attributes : option (list Row)
}.

(** [cls(name=..., tier=..., comment=..., keys=..., attributes=...)]:
    pydantic validates [tier] against [TIERS]; the rows and the comment
    are instances of their models already. *)
Definition init (name tier : string) (comment : option Comment.t)
  (keys : list Row) (attributes : option (list Row)) : result t :=
  if literal_mem tier TIERS
  then Ok (Build name tier comment keys attributes)
  else Raise (ValidationError "Table" "tier").

(** The local variables of [from_definition] that its loop updates. *)
Record locals : Type := Locals {
  passed_keys : bool;
  l_comment : option Comment.t;
  l_keys : list Row;
  l_attrs : list Row
}.

Definition start : locals := Locals false None [] [].

(** [attrs.append(attr)] once the divider has been passed,
    [keys.append(attr)] before. *)
Definition append_row (st : locals) (attr : Row) : locals :=
  if passed_keys st
  then Locals (passed_keys st) (l_comment st) (l_keys st)
         (l_attrs st ++ [attr])
  else Locals (passed_keys st) (l_comment st) (l_keys st ++ [attr])
         (l_attrs st).

(** One turn of [for line in lines]. *)
Definition loop_body (attribute_parser : string -> result Pieces)
  (st : locals) (line : string) : result locals :=
  let line := PyStr.strip line in
  if Nat.eqb (String.length line) 0
  then Ok st
  else if PyStr.startswith line "#"
  then
    c <- Comment.from_string line ;;
    Ok (Locals (passed_keys st) (Some c) (l_keys st) (l_attrs st))
  else if PyStr.contains "---" line
  then Ok (Locals true (l_comment st) (l_keys st) (l_attrs st))
  else
    attr <- (if PyStr.contains "->" line
             then d <- Dependency.from_string line ;; Ok (RowDependency d)
             else a <- Attribute.from_string attribute_parser line ;;
                  Ok (RowAttribute a)) ;;
    Ok (append_row st attr).

Fixpoint loop (attribute_parser : string -> result Pieces)
  (st : locals) (lines : list string) : result locals :=
  match lines with
  | [] => Ok st
  | line :: lines' =>
      st' <- loop_body attribute_parser st line ;;
      loop attribute_parser st' lines'
  end.

Definition from_definition (attribute_parser : string -> result Pieces)
  (name definition : string) (tier : option string) : result t :=
  lines <- PyStr.split definition LF ;;
  st <- loop attribute_parser start lines ;;
  let tier :=
    match tier with
    | None => "MANUAL"
    | Some tier => tier
    end in
  init name tier (l_comment st) (l_keys st) (Some (l_attrs st)).

Definition make_row (r : Row) : string :=
  match r with
  | RowAttribute a => Attribute.make a
  | RowDependency d => Dependency.make d
  end.

(** [for row in rows: out_str += f'{indent}{row.make()}\n'] *)
Definition add_rows (indent : string) (rows : list Row) (out_str : string)
  : string :=
  fold_left (fun out row => out ++ indent ++ make_row row ++ LF) rows out_str.

(** [list(rows)] when [rows] is not a list: [None] is not iterable. *)
Definition as_list (rows : option (list Row)) : result (list Row) :=
  match rows with
  | Some l => Ok l
  | None => Raise (TypeError "'NoneType' object is not iterable")
  end.

Definition _make_python (self : t) : result string :=
  let out_str := "@schema" ++ LF in
  let out_str := out_str ++ "class " ++ name self ++ "(dj." ++ tier self
                 ++ "):" ++ LF in
  let out_str := out_str ++ "    definition = " ++ triple_quote ++ LF in
  let out_str :=
    match comment self with
    | Some c => out_str ++ "    " ++ Comment.make c ++ LF
    | None => out_str
    end in
  let out_str := add_rows "    " (keys self) out_str in
  let out_str := out_str ++ "    ---" ++ LF in
  attrs <- as_list (attributes self) ;;
  let out_str := add_rows "    " attrs out_str in
  Ok (out_str ++ "    " ++ triple_quote).

Definition _make_matlab (self : t) : result string :=
  let out_str := "%{" ++ LF in
  let out_str :=
    match comment self with
    | Some c => out_str ++ "# " ++ Comment.make c ++ LF
    | None => out_str
    end in
  let out_str := add_rows "# " (keys self) out_str in
  let out_str := out_str ++ "---" ++ LF in
  attrs <- as_list (attributes self) ;;
  let out_str := add_rows "# " attrs out_str in
  let out_str := out_str ++ "%}" ++ LF ++ LF in
  Ok (out_str ++ "classdef " ++ name self ++ " < dj." ++ tier self
      ++ LF ++ "end").

(** [make(lang)]: [Ok None] is the [None] a Python function returns when
    it ends without a [return]. *)
Definition make (self : t) (lang : string) : result (option string) :=
  if String.eqb lang "python"
  then out <- _make_python self ;; Ok (Some out)
  else if String.eqb (PyStr.lower lang) "matlab"
  then out <- _make_matlab self ;; Ok (Some out)
  else Ok None.

End Table.

(** ** A parser for attribute lines

    Modelled from the spec: [datajoint.declare.attribute_parser], the
    pyparsing grammar that [Attribute.from_string] calls, belongs to the
    datajoint package and is not among the sources. The spec gives the line
    as [<identifier>(=<literal>)?\s*:\s*<type>(\s*#\s*<comment>)?] with
    [default] the text between [=] and [:], [type] the text between [:] and
    [#], and [comment] the text after [#]. The theorems below hold for every
    parser; this one stands for it in the examples. *)

Module AttributeParser.

Definition is_ident_start (c : ascii) : bool :=
  let n := nat_of_ascii c in ((97 <=? n) && (n <=? 122))%nat.

Definition is_ident_char (c : ascii) : bool :=
  is_ident_start c || PyStr.is_digit c || Ascii.eqb c "_".

(** [s] cut at the first [c]: the text before it and the text after it. *)
Fixpoint cut (c : ascii) (s : string) : option (string * string) :=
  match s with
  | EmptyString => None
  | String d s' =>
      if Ascii.eqb d c then Some (EmptyString, s')
      else match cut c s' with
           | Some (a, b) => Some (String d a, b)
           | None => None
           end
  end.

Fixpoint span (p : ascii -> bool) (s : string) : string * string :=
  match s with
  | EmptyString => (EmptyString, EmptyString)
  | String c s' =>
      if p c
      then let (a, b) := span p s' in (String c a, b)
      else (EmptyString, s)
  end.

Definition type_and_comment (name : string) (default : option string)
  (s : string) : result Pieces :=
  match cut "#" s with
  | Some (ty, comment) =>
      match PyStr.strip ty with
      | EmptyString => Raise (ParseException "Expected type")
      | ty' => Ok {| piece_name := name; piece_type := ty';
                     piece_default := default; piece_comment := comment |}
      end
  | None => Raise (ParseException "Expected #")
  end.

Definition parseString (input : string) : result Pieces :=
  match PyStr.lstrip_by PyStr.isspace input with
  | String c _ as s =>
      if is_ident_start c
      then
        let (name, rest) := span is_ident_char s in
        match PyStr.lstrip_by PyStr.isspace rest with
        | String "=" rest' =>
            match cut ":" rest' with
            | Some (default, rest'') =>
                type_and_comment name (Some (PyStr.strip default)) rest''
            | None => Raise (ParseException "Expected :")
            end
        | String ":" rest' => type_and_comment name None rest'
        | _ => Raise (ParseException "Expected :")
        end
      else Raise (ParseException "Expected name")
  | EmptyString => Raise (ParseException "Expected name")
  end.

End AttributeParser.

(** ** Notions the statements below are written in *)

Definition error_of {A : Type} (c : result A) : option exn :=
  match c with
  | Ok _ => None
  | Raise e => Some e
  end.

(** The exception that parsing one line of a definition raises, if any:
    that of the row parser [Table.from_definition] hands the line to. Blank
    lines and divider lines are handed to none. *)
Definition row_error (attribute_parser : string -> result Pieces)
  (line : string) : option exn :=
  let line := PyStr.strip line in
  if Nat.eqb (String.length line) 0 then None
  else if PyStr.startswith line "#" then error_of (Comment.from_string line)
  else if PyStr.contains "---" line then None
  else if PyStr.contains "->" line then error_of (Dependency.from_string line)
  else error_of (Attribute.from_string attribute_parser line).

(** A line that parses. *)
Definition row_ok (attribute_parser : string -> result Pieces)
  (line : string) : Prop :=
  row_error attribute_parser line = None.

(** A line that [Table.from_definition] reads as a comment. *)
Definition is_comment_line (line : string) : bool :=
  let line := PyStr.strip line in
  negb (Nat.eqb (String.length line) 0) && PyStr.startswith line "#".

Definition is_blank_line (line : string) : bool :=
  Nat.eqb (String.length (PyStr.strip line)) 0.

(** A line that [Table.from_definition] reads as the divider. *)
Definition is_divider_line (line : string) : bool :=
  let line := PyStr.strip line in
  negb (Nat.eqb (String.length line) 0)
  && negb (PyStr.startswith line "#")
  && PyStr.contains "---" line.

(** No key line before the divider: blank lines and comments only, up to
    the first divider line or the end of the body. *)
Fixpoint no_key_line (lines : list string) : bool :=
  match lines with
  | [] => true
  | line :: lines' =>
      if is_blank_line line || is_comment_line line
      then no_key_line lines'
      else is_divider_line line
  end.

Fixpoint all_chars (p : ascii -> bool) (s : string) : bool :=
  match s with
  | EmptyString => true
  | String c s' => p c && all_chars p s'
  end.

(** The characters of a list of column names: letters, digits, the
    underscore, and the comma and the space that separate the names. *)
Definition is_column_char (c : ascii) : bool :=
  let n := nat_of_ascii c in
  (((97 <=? n) && (n <=? 122)) || ((65 <=? n) && (n <=? 90))
   || ((48 <=? n) && (n <=? 57)) || (n =? 95) || (n =? 44) || (n =? 32))%nat.

(** The index declarations [index (...)] and [unique index (...)] over a
    list of column names. *)
Definition index_declaration (unique : bool) (columns : string) : string :=
  (if unique then "unique index (" else "index (") ++ columns ++ ")".

(** The round trip of a type token: it parses, and what it parses to
    renders to a text that parses to the same [DJ_Type]. *)
Definition round_trip (token : string) : Prop :=
  exists d, DJ_Type.from_string token = Ok d
            /\ DJ_Type.from_string (DJ_Type.make d) = Ok d.

Definition DJ_Type_eqb_args (a b : option Args) : bool :=
  match a, b with
  | None, None => true
  | Some (ArgInt m), Some (ArgInt n) => (m =? n)%Z
  | Some (ArgInts l), Some (ArgInts l') =>
      if list_eq_dec Z.eq_dec l l' then true else false
  | Some (ArgStrs l), Some (ArgStrs l') =>
      if list_eq_dec string_dec l l' then true else false
  | _, _ => false
  end.

(** [round_trip], decided. *)
Definition round_trip_b (token : string) : bool :=
  match DJ_Type.from_string token with
  | Ok d =>
      match DJ_Type.from_string (DJ_Type.make d) with
      | Ok d' =>
          String.eqb (DJ_Type.datatype d) (DJ_Type.datatype d')
          && DJ_Type_eqb_args (DJ_Type.args d) (DJ_Type.args d')
          && Bool.eqb (DJ_Type.unsigned d) (DJ_Type.unsigned d')
      | Raise _ => false
      end
  | Raise _ => false
  end.

(** ** The tables, bodies and lines of the examples *)

Definition session_table : Table.t :=
  Table.Build "Scan" "Manual" None
    [Table.RowDependency (Dependency.Build "Session")] (Some []).

Definition two_keys_second_malformed : string :=
  "id : int" ++ LF ++ "x -> y" ++ LF ++ "---".

Definition no_keys_body : string :=
  "# note" ++ LF ++ "---" ++ LF ++ "-> Session".

Definition two_comments_body : string :=
  "# first" ++ LF ++ "# second" ++ LF ++ "-> Session".

Definition arrow_in_comment : string := "a : int # x -> y".

Definition long_arrow_in_comment : string := "a : int # x ---> y".

(** ** Notions of the further properties *)

(** A line that is neither blank, nor a comment, nor the divider: a row. *)
Definition is_row_line (line : string) : bool :=
  negb (is_blank_line line) && negb (is_comment_line line)
  && negb (is_divider_line line).

(** The row of a row line, as the loop parses it. *)
Definition parse_row (attribute_parser : string -> result Pieces)
  (line : string) : result Table.Row :=
  let line := PyStr.strip line in
  if PyStr.contains "->" line
  then d <- Dependency.from_string line ;; Ok (Table.RowDependency d)
  else a <- Attribute.from_string attribute_parser line ;;
       Ok (Table.RowAttribute a).

(** The rows of the row lines among [lines], in the order of the lines. *)
Fixpoint rows_of (attribute_parser : string -> result Pieces)
  (lines : list string) : list Table.Row :=
  match lines with
  | [] => []
  | line :: lines' =>
      if is_row_line line
      then match parse_row attribute_parser line with
           | Ok row => row :: rows_of attribute_parser lines'
           | Raise _ => rows_of attribute_parser lines'
           end
      else rows_of attribute_parser lines'
  end.

(** The lines before the first divider line, and those after it. *)
Fixpoint before_divider (lines : list string) : list string :=
  match lines with
  | [] => []
  | line :: lines' =>
      if is_divider_line line then [] else line :: before_divider lines'
  end.

Fixpoint after_divider (lines : list string) : list string :=
  match lines with
  | [] => []
  | line :: lines' =>
      if is_divider_line line then lines' else after_divider lines'
  end.

(** The lines of a body as the loop sees them: stripped, blank ones left
    out. *)
Definition significant_lines (lines : list string) : list string :=
  filter (fun line => negb (Nat.eqb (String.length line) 0))
    (map PyStr.strip lines).

(** The characters of [str(n)] for an [int]. *)
Definition is_num_char (c : ascii) : bool :=
  PyStr.is_digit c || Ascii.eqb c "-".

Definition has_args (d : DJ_Type.t) : bool := args_truthy (DJ_Type.args d).

(** A text that can stand as one item of a list of arguments and be read
    back: no comma, no [@], and [unsigned] nowhere in it. *)
Definition plain_item (s : string) : bool :=
  negb (PyStr.mem "," s) && negb (PyStr.mem "@" s)
  && negb (PyStr.contains "unsigned" s).

(** The arguments that are rendered between parentheses and read back as
    they are: an integer other than [0]; two integers or more; two texts or
    more that are [plain_item]s and not all of them integers. *)
Definition readable_args (a : Args) : Prop :=
  match a with
  | ArgInt n => n <> 0%Z
  | ArgInts l => 2 <= List.length l
  | ArgStrs l =>
      2 <= List.length l
      /\ forallb plain_item l = true
      /\ ints_of_strs l = None
  end.

(** What holds of every row that the parsers return: a dependency has a
    name; an attribute has a type whose keyword is one of [DATATYPES] and a
    comment, possibly empty, without whitespace around it. *)
Definition well_formed_row (row : Table.Row) : Prop :=
  match row with
  | Table.RowDependency d => Dependency.dependency d <> EmptyString
  | Table.RowAttribute a =>
      In (DJ_Type.datatype (Attribute.datatype a)) DATATYPES
      /\ exists c, Attribute.comment a = Some c /\ PyStr.strip c = c
  end.

Definition well_formed_comment (comment : option Comment.t) : Prop :=
  match comment with
  | Some c => Comment.comment c <> EmptyString
  | None => True
  end.

Definition well_formed_locals (st : Table.locals) : Prop :=
  well_formed_comment (Table.l_comment st)
  /\ Forall well_formed_row (Table.l_keys st)
  /\ Forall well_formed_row (Table.l_attrs st).

(** The bodies of the examples of the further properties. *)

Definition plain_body : string :=
  "# note" ++ LF ++ "-> Session" ++ LF ++ "---" ++ LF ++ "-> Subject".

Definition indented_body : string :=
  "   # note  " ++ LF ++ LF ++ "   -> Session" ++ LF ++ "  --- " ++ LF
  ++ "   " ++ LF ++ "   -> Subject".

Definition two_dividers_body : string :=
  "-> Session" ++ LF ++ "---" ++ LF ++ "-> Subject" ++ LF ++ "---" ++ LF
  ++ "-> Probe".

(** The index lines of the examples. *)




(** * Theorems *)

(** ** Lemmas on strings *)

Lemma mem_app (c : ascii) (a b : string) :
  PyStr.mem c (a ++ b) = PyStr.mem c a || PyStr.mem c b.
Proof.
  induction a as [|d a IH]; simpl.
  - reflexivity.
  - rewrite IH. now rewrite orb_assoc.
Qed.

Lemma prefix_head_absent (c : ascii) (p s : string) :
  PyStr.mem c s = false -> String.prefix (String c p) s = false.
Proof.
  destruct s as [|d s]; simpl; intros H.
  - reflexivity.
  - apply orb_false_elim in H as [Hd _].
    destruct (ascii_dec c d) as [->|_].
    + now rewrite Ascii.eqb_refl in Hd.
    + reflexivity.
Qed.

(** A text that starts with [c] does not occur in a string without [c]. *)
Lemma contains_head_absent (c : ascii) (p s : string) :
  PyStr.mem c s = false -> PyStr.contains (String c p) s = false.
Proof.
  induction s as [|d s IH]; intros H.
  - reflexivity.
  - cbn [PyStr.contains].
    rewrite (prefix_head_absent c p (String d s) H).
    simpl in H. apply orb_false_elim in H as [_ Hs].
    now apply IH.
Qed.

(** [c in s] for a single character. *)
Lemma contains_char (c : ascii) (s : string) :
  PyStr.contains (String c EmptyString) s = PyStr.mem c s.
Proof.
  induction s as [|d s IH].
  - reflexivity.
  - cbn [PyStr.contains PyStr.mem String.prefix]. rewrite IH.
    destruct (ascii_dec c d) as [->|Hn].
    + rewrite Ascii.eqb_refl. now destruct s.
    + apply Ascii.eqb_neq in Hn. now rewrite Hn.
Qed.

(** [rstrip] keeps every character it is not asked to strip. *)
Lemma rstrip_by_keeps (p : ascii -> bool) (c : ascii) (s : string) :
  p c = false -> PyStr.mem c s = true ->
  PyStr.mem c (PyStr.rstrip_by p s) = true.
Proof.
  intros Hp. induction s as [|d s IH]; simpl; intros H.
  - discriminate.
  - apply orb_true_iff in H as [Hd | Hs].
    + apply Ascii.eqb_eq in Hd. subst d.
      destruct (PyStr.rstrip_by p s); [rewrite Hp|]; simpl;
        now rewrite Ascii.eqb_refl.
    + specialize (IH Hs).
      destruct (PyStr.rstrip_by p s) as [|e r].
      * discriminate.
      * cbn [PyStr.mem]. cbn [PyStr.mem] in IH. rewrite IH.
        apply orb_true_r.
Qed.

Lemma all_chars_mem (p : ascii -> bool) (c : ascii) (s : string) :
  all_chars p s = true -> p c = false -> PyStr.mem c s = false.
Proof.
  intros Hs Hc. induction s as [|d s IH]; simpl in *.
  - reflexivity.
  - apply andb_true_iff in Hs as [Hd Hs]. rewrite (IH Hs), orb_false_r.
    apply Ascii.eqb_neq. intros ->. congruence.
Qed.

Lemma strip_prefix_None (p s : string) :
  String.prefix p s = false -> PyStr.strip_prefix p s = None.
Proof.
  revert s. induction p as [|a p IH]; intros [|b s]; simpl;
    try discriminate; try reflexivity.
  destruct (ascii_dec a b) as [->|Hn].
  - rewrite Ascii.eqb_refl. apply IH.
  - intros _. apply Ascii.eqb_neq in Hn. now rewrite Hn.
Qed.

(** [sep.split(s)] for a one-character [sep] and an [s] that has that
    character: [s] occurs in [sep] only when it is [sep] itself. *)
Lemma split_char_by (c : ascii) (s : string) :
  PyStr.mem c s = true ->
  PyStr.split (String c EmptyString) s
  = Ok (if String.eqb s (String c EmptyString)
        then [EmptyString; EmptyString]
        else [String c EmptyString]).
Proof.
  destruct s as [|d [|e s]]; simpl.
  - discriminate.
  - rewrite orb_false_r. intros H. apply Ascii.eqb_eq in H. subst d.
    rewrite Ascii.eqb_refl. destruct (ascii_dec c c); [reflexivity|congruence].
  - intros _. destruct (ascii_dec d c) as [->|Hn].
    + rewrite Ascii.eqb_refl. reflexivity.
    + apply Ascii.eqb_neq in Hn. now rewrite Hn.
Qed.

(** ** The type grammar *)

(** Where the token has an [@], [from_string] raises: [ValueError] from
    the unpacking of a one-item list, or pydantic's error for the empty
    [datatype] when all that is left of the token is the [@]. *)
Lemma from_string_at_raises (input : string) :
  PyStr.mem "@" input = true ->
  DJ_Type.from_string input
  = Raise (ValueError "not enough values to unpack (expected 2, got 1)")
  \/ DJ_Type.from_string input = Raise (ValidationError "DJ_Type" "datatype").
Proof.
  intros H. unfold DJ_Type.from_string.
  set (input' := if PyStr.contains "unsigned" input
                 then PyStr.rstrip " unsigned" input else input).
  assert (H' : PyStr.mem "@" input' = true).
  { subst input'. destruct (PyStr.contains "unsigned" input); [|exact H].
    apply rstrip_by_keeps; [reflexivity|exact H]. }
  rewrite contains_char, H', (split_char_by "@" input' H').
  cbn [bind]. destruct (String.eqb input' "@"); [right|left]; reflexivity.
Qed.

Lemma round_trip_b_sound (token : string) :
  round_trip_b token = true -> round_trip token.
Proof.
  unfold round_trip_b, round_trip.
  destruct (DJ_Type.from_string token) as [d|e]; [|discriminate].
  destruct (DJ_Type.from_string (DJ_Type.make d)) as [d'|e] eqn:Hm;
    [|discriminate].
  intros H. apply andb_true_iff in H as [H Hu].
  apply andb_true_iff in H as [Hd Ha].
  apply String.eqb_eq in Hd. apply Bool.eqb_prop in Hu.
  exists d. split; [reflexivity|]. rewrite Hm. clear Hm. f_equal.
  destruct d as [dt a u], d' as [dt' a' u']; simpl in *. subst dt' u'.
  f_equal.
  destruct a as [[m|l|l]|], a' as [[m'|l'|l']|]; simpl in Ha;
    try discriminate; try reflexivity.
  - apply Z.eqb_eq in Ha. now subst.
  - destruct (list_eq_dec Z.eq_dec l l'); [now subst|discriminate].
  - destruct (list_eq_dec string_dec l l'); [now subst|discriminate].
Qed.

Lemma round_trip_b_complete (token : string) :
  round_trip_b token = false -> ~ round_trip token.
Proof.
  unfold round_trip_b, round_trip. intros H [d [Hd Hm]].
  rewrite Hd, Hm in H.
  rewrite String.eqb_refl, Bool.eqb_reflx, andb_true_r in H. simpl in H.
  destruct (DJ_Type.args d) as [[m|l|l]|]; simpl in H.
  - now rewrite Z.eqb_refl in H.
  - now destruct (list_eq_dec Z.eq_dec l l).
  - now destruct (list_eq_dec string_dec l l).
  - discriminate.
Qed.

(** Every plain type keyword round-trips. *)
Lemma round_trip_plain (kind : string) :
  In kind DATATYPES -> round_trip kind.
Proof.
  intros H. apply round_trip_b_sound.
  unfold DATATYPES in H. simpl in H.
  repeat (destruct H as [<-|H]; [vm_compute; reflexivity|]).
  contradiction.
Qed.

(** Parameterized, list-parameterized and unsigned tokens that round-trip. *)
Lemma round_trip_examples :
  Forall round_trip
    [ "varchar(20)"; "decimal(4,2)"; "decimal(4, 2)"; "enum('a','b')";
      "int unsigned"; "decimal(4,2) unsigned"; "char(-5)" ].
Proof.
  repeat constructor; apply round_trip_b_sound; vm_compute; reflexivity.
Qed.

(** The keywords [k] for which [k unsigned] parses at all: [rstrip] eats
    the final [e] of the four others, and what is left is no keyword. *)
Lemma unsigned_keywords_parsed :
  filter (fun k => is_ok (DJ_Type.from_string (k ++ " unsigned"))) DATATYPES
  = [ "tinyint"; "smallint"; "mediumint"; "int"; "enum"; "timestamp"; "char";
      "varchar"; "float"; "decimal"; "blob"; "tinyblob"; "mediumblob";
      "longblob"; "attach"; "filepath" ].
Proof. vm_compute. reflexivity. Qed.

(** C2. [DJ_Type.from_string] does not return a [filepath] type for a token
    [<name>@<store>]: at [filepath@store] it raises [ValueError], the list
    [['@']] that ['@'.split(input)] returns being unpacked into two names,
    and no token with an [@] is parsed without raising. *)
Theorem from_string_filepath_store_raises :
  DJ_Type.from_string "filepath@store"
  = Raise (ValueError "not enough values to unpack (expected 2, got 1)")
  /\ forall name store : string,
       is_ok (DJ_Type.from_string (name ++ "@" ++ store)) = false.
Proof.
  split.
  - vm_compute. reflexivity.
  - intros name store.
    assert (H : PyStr.mem "@" (name ++ "@" ++ store) = true).
    { rewrite mem_app. simpl. apply orb_true_r. }
    destruct (from_string_at_raises _ H) as [-> | ->]; reflexivity.
Qed.

(** C3. The round trip of types fails on the code: the filepath token
    [filepath@store] and the unsigned token [double unsigned] do not parse,
    and [char(0)] parses to a type with [args = 0] that renders as [char],
    which parses to a type without [args]. *)
Theorem round_trip_fails :
  ~ round_trip "filepath@store"
  /\ ~ round_trip "double unsigned"
  /\ DJ_Type.from_string "char(0)"
     = Ok (DJ_Type.Build "char" (Some (ArgInt 0)) false)
  /\ DJ_Type.make (DJ_Type.Build "char" (Some (ArgInt 0)) false) = "char"
  /\ DJ_Type.from_string "char" = Ok (DJ_Type.Build "char" None false)
  /\ ~ round_trip "char(0)".
Proof.
  split; [apply round_trip_b_complete; vm_compute; reflexivity|].
  split; [apply round_trip_b_complete; vm_compute; reflexivity|].
  split; [vm_compute; reflexivity|].
  split; [vm_compute; reflexivity|].
  split; [vm_compute; reflexivity|].
  apply round_trip_b_complete; vm_compute; reflexivity.
Qed.

(** C4. The unsigned flag is not read off the suffix: [double unsigned]
    ends with the suffix, and [rstrip(' unsigned')] strips the final [e] of
    [double] with it, so that the token is refused; the enum token below
    does not end with the suffix and is parsed as unsigned, [unsigned]
    being one of its members. *)
Theorem from_string_unsigned_suffix_misread :
  PyStr.endswith "double unsigned" " unsigned" = true
  /\ PyStr.rstrip " unsigned" "double unsigned" = "doubl"
  /\ DJ_Type.from_string "double unsigned"
     = Raise (ValidationError "DJ_Type" "datatype")
  /\ PyStr.endswith "enum('signed','unsigned')" " unsigned" = false
  /\ DJ_Type.from_string "enum('signed','unsigned')"
     = Ok (DJ_Type.Build "enum" (Some (ArgStrs ["'signed'"; "'unsigned'"]))
             true).
Proof. repeat split; vm_compute; reflexivity. Qed.

(** ** The table assembler *)

Section Assembler.

Variable attribute_parser : string -> result Pieces.

Lemma bind_row {A : Type} (c : result A) (row : A -> Table.Row)
  (st : Table.locals) :
  (attr <- (x <- c ;; Ok (row x)) ;; Ok (Table.append_row st attr))
  = (x <- c ;; Ok (Table.append_row st (row x))).
Proof. destruct c; reflexivity. Qed.

(** *** What one turn of the loop does, by the kind of the line *)

Lemma loop_body_blank (st : Table.locals) (line : string) :
  is_blank_line line = true -> Table.loop_body attribute_parser st line = Ok st.
Proof.
  unfold is_blank_line, Table.loop_body. intros H. now rewrite H.
Qed.

Lemma loop_body_comment (st : Table.locals) (line : string) :
  is_comment_line line = true ->
  Table.loop_body attribute_parser st line
  = (c <- Comment.from_string (PyStr.strip line) ;;
     Ok (Table.Locals (Table.passed_keys st) (Some c) (Table.l_keys st)
           (Table.l_attrs st))).
Proof.
  unfold is_comment_line, Table.loop_body. intros H.
  apply andb_true_iff in H as [Hb Hc]. apply negb_true_iff in Hb.
  now rewrite Hb, Hc.
Qed.

Lemma loop_body_divider (st : Table.locals) (line : string) :
  is_divider_line line = true ->
  Table.loop_body attribute_parser st line
  = Ok (Table.Locals true (Table.l_comment st) (Table.l_keys st)
          (Table.l_attrs st)).
Proof.
  unfold is_divider_line, Table.loop_body. intros H.
  apply andb_true_iff in H as [H Hd]. apply andb_true_iff in H as [Hb Hc].
  apply negb_true_iff in Hb, Hc. now rewrite Hb, Hc, Hd.
Qed.

Lemma loop_body_dependency (st : Table.locals) (line : string) :
  is_blank_line line = false ->
  PyStr.startswith (PyStr.strip line) "#" = false ->
  PyStr.contains "---" (PyStr.strip line) = false ->
  PyStr.contains "->" (PyStr.strip line) = true ->
  Table.loop_body attribute_parser st line
  = (d <- Dependency.from_string (PyStr.strip line) ;;
     Ok (Table.append_row st (Table.RowDependency d))).
Proof.
  unfold is_blank_line, Table.loop_body. intros Hb Hc Hd Ha.
  rewrite Hb, Hc, Hd, Ha. apply bind_row.
Qed.

Lemma loop_body_attribute (st : Table.locals) (line : string) :
  is_blank_line line = false ->
  PyStr.startswith (PyStr.strip line) "#" = false ->
  PyStr.contains "---" (PyStr.strip line) = false ->
  PyStr.contains "->" (PyStr.strip line) = false ->
  Table.loop_body attribute_parser st line
  = (a <- Attribute.from_string attribute_parser (PyStr.strip line) ;;
     Ok (Table.append_row st (Table.RowAttribute a))).
Proof.
  unfold is_blank_line, Table.loop_body. intros Hb Hc Hd Ha.
  rewrite Hb, Hc, Hd, Ha. apply bind_row.
Qed.

(** A turn of the loop raises what the row parser of its line raises,
    whatever the rows collected so far. *)
Lemma loop_body_raises (st : Table.locals) (line : string) (e : exn) :
  row_error attribute_parser line = Some e ->
  Table.loop_body attribute_parser st line = Raise e.
Proof.
  unfold row_error, Table.loop_body.
  destruct (Nat.eqb (String.length (PyStr.strip line)) 0); [discriminate|].
  destruct (PyStr.startswith (PyStr.strip line) "#").
  { destruct (Comment.from_string (PyStr.strip line)); simpl; congruence. }
  destruct (PyStr.contains "---" (PyStr.strip line)); [discriminate|].
  destruct (PyStr.contains "->" (PyStr.strip line)).
  - destruct (Dependency.from_string (PyStr.strip line)); simpl; congruence.
  - destruct (Attribute.from_string attribute_parser (PyStr.strip line));
      simpl; congruence.
Qed.

Lemma loop_body_returns (st : Table.locals) (line : string) :
  row_ok attribute_parser line ->
  exists st', Table.loop_body attribute_parser st line = Ok st'.
Proof.
  unfold row_ok, row_error, Table.loop_body.
  destruct (Nat.eqb (String.length (PyStr.strip line)) 0); [eauto|].
  destruct (PyStr.startswith (PyStr.strip line) "#").
  { destruct (Comment.from_string (PyStr.strip line)); simpl;
      [eauto|discriminate]. }
  destruct (PyStr.contains "---" (PyStr.strip line)); [eauto|].
  destruct (PyStr.contains "->" (PyStr.strip line)).
  - destruct (Dependency.from_string (PyStr.strip line)); simpl;
      [eauto|discriminate].
  - destruct (Attribute.from_string attribute_parser (PyStr.strip line));
      simpl; [eauto|discriminate].
Qed.

(** *** The loop over the lines *)

Lemma loop_app (st : Table.locals) (pre post : list string) :
  Table.loop attribute_parser st (pre ++ post)%list
  = (st' <- Table.loop attribute_parser st pre ;;
     Table.loop attribute_parser st' post).
Proof.
  revert st. induction pre as [|line pre IH]; intros st; simpl.
  - reflexivity.
  - destruct (Table.loop_body attribute_parser st line) as [st1|e]; simpl;
      [apply IH|reflexivity].
Qed.

Lemma loop_returns (st : Table.locals) (lines : list string) :
  Forall (row_ok attribute_parser) lines ->
  exists st', Table.loop attribute_parser st lines = Ok st'.
Proof.
  intros H. revert st. induction H as [|line lines Hl _ IH]; intros st; simpl.
  - eauto.
  - destruct (loop_body_returns st line Hl) as [st1 ->]. simpl. apply IH.
Qed.

(** The loop stops at the first line that does not parse. *)
Lemma loop_raises (st : Table.locals) (pre post : list string)
  (line : string) (e : exn) :
  Forall (row_ok attribute_parser) pre ->
  row_error attribute_parser line = Some e ->
  Table.loop attribute_parser st (pre ++ line :: post)%list = Raise e.
Proof.
  intros Hpre He. rewrite loop_app.
  destruct (loop_returns st pre Hpre) as [st1 ->]. simpl.
  now rewrite (loop_body_raises st1 line e He).
Qed.

Lemma from_definition_lines (name definition : string)
  (tier : option string) (lines : list string) :
  PyStr.split definition LF = Ok lines ->
  Table.from_definition attribute_parser name definition tier
  = (st <- Table.loop attribute_parser Table.start lines ;;
     Table.init name (match tier with None => "MANUAL" | Some t => t end)
       (Table.l_comment st) (Table.l_keys st) (Some (Table.l_attrs st))).
Proof. unfold Table.from_definition. intros ->. reflexivity. Qed.

Lemma from_definition_raises_first_error (name definition : string)
  (tier : option string) (pre post : list string) (line : string) (e : exn) :
  PyStr.split definition LF = Ok (pre ++ line :: post)%list ->
  Forall (row_ok attribute_parser) pre ->
  row_error attribute_parser line = Some e ->
  Table.from_definition attribute_parser name definition tier = Raise e.
Proof.
  intros Hs Hpre He. rewrite (from_definition_lines _ _ _ _ Hs).
  now rewrite (loop_raises _ pre post line e Hpre He).
Qed.

(** Among lines of which one does not parse, there is a first. *)
Lemma first_row_error (lines : list string) :
  Exists (fun line => row_error attribute_parser line <> None) lines ->
  exists pre line post e,
    lines = (pre ++ line :: post)%list
    /\ Forall (row_ok attribute_parser) pre
    /\ row_error attribute_parser line = Some e.
Proof.
  induction lines as [|l lines IH]; intros H.
  - inversion H.
  - destruct (row_error attribute_parser l) as [e|] eqn:Hl.
    + exists [], l, lines, e. repeat split; [constructor|exact Hl].
    + assert (H' : Exists (fun line => row_error attribute_parser line <> None)
                     lines).
      { inversion H as [? ? Hx|? ? Hx]; subst; [congruence|exact Hx]. }
      destruct (IH H') as (pre & line & post & e & -> & Hpre & He).
      exists (l :: pre), line, post, e.
      repeat split; [constructor; assumption|exact He].
Qed.

(** C6. Fail-fast propagation: when some line of the body does not parse,
    [from_definition] raises the exception of the first such line, as the
    row parser raised it, and returns no table. *)
Theorem from_definition_fail_fast (name definition : string)
  (tier : option string) (lines : list string) :
  PyStr.split definition LF = Ok lines ->
  Exists (fun line => row_error attribute_parser line <> None) lines ->
  exists pre line post e,
    lines = (pre ++ line :: post)%list
    /\ Forall (row_ok attribute_parser) pre
    /\ row_error attribute_parser line = Some e
    /\ Table.from_definition attribute_parser name definition tier = Raise e
    /\ is_ok (Table.from_definition attribute_parser name definition tier)
       = false.
Proof.
  intros Hs H.
  destruct (first_row_error lines H)
    as (pre & line & post & e & -> & Hpre & He).
  exists pre, line, post, e.
  rewrite (from_definition_raises_first_error _ _ _ _ _ _ _ Hs Hpre He).
  repeat split; assumption.
Qed.

(** C1. Called without a tier, [from_definition] passes [tier='MANUAL'] to
    the constructor, which is none of [TIERS]: the call returns no table,
    whatever the body, and at the body [-> Session] pydantic's validation
    error for [tier] is what it raises. *)
Theorem from_definition_default_tier_raises (name definition : string) :
  literal_mem "MANUAL" TIERS = false
  /\ is_ok (Table.from_definition attribute_parser name definition None)
     = false
  /\ Table.from_definition attribute_parser "Foo" "-> Session" None
     = Raise (ValidationError "Table" "tier").
Proof.
  split; [reflexivity|]. split; [|vm_compute; reflexivity].
  unfold Table.from_definition. cbn [PyStr.split LF bind].
  destruct (Table.loop attribute_parser Table.start _); reflexivity.
Qed.

(** With a tier of [TIERS] and lines that all parse, [from_definition]
    returns the table of the rows collected. *)
Lemma from_definition_returns (name definition tier : string)
  (lines : list string) :
  PyStr.split definition LF = Ok lines ->
  Forall (row_ok attribute_parser) lines ->
  literal_mem tier TIERS = true ->
  exists st,
    Table.loop attribute_parser Table.start lines = Ok st
    /\ Table.from_definition attribute_parser name definition (Some tier)
       = Ok (Table.Build name tier (Table.l_comment st) (Table.l_keys st)
               (Some (Table.l_attrs st))).
Proof.
  intros Hs Hl Ht. rewrite (from_definition_lines _ _ _ _ Hs).
  destruct (loop_returns Table.start lines Hl) as [st Hst].
  exists st. split; [exact Hst|]. rewrite Hst. cbn [bind].
  unfold Table.init. now rewrite Ht.
Qed.

(** *** Index declarations *)

Lemma index_declaration_chars (c : ascii) (unique : bool) (columns : string) :
  is_column_char c = false ->
  PyStr.mem c "unique index ()" = false ->
  all_chars is_column_char columns = true ->
  PyStr.mem c (index_declaration unique columns) = false.
Proof.
  intros Hc Hp Hcols. unfold index_declaration.
  rewrite !mem_app, (all_chars_mem _ c columns Hcols Hc).
  destruct unique; cbn in Hp |- *;
    repeat (apply orb_false_elim in Hp as [? Hp]);
    repeat (apply orb_false_intro; try assumption; try reflexivity).
Qed.

Lemma index_declaration_matches (unique : bool) (columns : string) :
  all_chars is_column_char columns = true ->
  Re.match_index (index_declaration unique columns) = true.
Proof.
  intros Hcols.
  assert (Hm : PyStr.mem ":" (" (" ++ columns ++ ")") = false).
  { rewrite !mem_app, (all_chars_mem _ ":" columns Hcols eq_refl).
    reflexivity. }
  unfold Re.match_index, index_declaration. destruct unique.
  - apply orb_true_iff. left.
    change (Re.unique_index_tail ("unique index (" ++ columns ++ ")"))
      with (Re.index_tail ("index" ++ " (" ++ columns ++ ")")).
    change (negb (PyStr.mem ":" (" (" ++ columns ++ ")")) = true).
    now rewrite Hm.
  - apply orb_true_iff. right.
    change (negb (PyStr.mem ":" (" (" ++ columns ++ ")")) = true).
    now rewrite Hm.
Qed.

Lemma index_declaration_row_error (unique : bool) (columns line : string) :
  all_chars is_column_char columns = true ->
  PyStr.strip line = index_declaration unique columns ->
  row_error attribute_parser line = Some NotImplementedError.
Proof.
  intros Hcols Hline. unfold row_error. rewrite Hline.
  assert (Hdash : PyStr.mem "-" (index_declaration unique columns) = false)
    by (apply index_declaration_chars; [reflexivity|reflexivity|exact Hcols]).
  replace (Nat.eqb (String.length (index_declaration unique columns)) 0)
    with false by (destruct unique; reflexivity).
  replace (PyStr.startswith (index_declaration unique columns) "#")
    with false by (destruct unique; reflexivity).
  rewrite !(contains_head_absent "-" _ _ Hdash).
  unfold Attribute.from_string.
  now rewrite (index_declaration_matches unique columns Hcols).
Qed.

(** An index declaration over a list of column names, [index (a, b)] or
    [unique index (a, b)], is refused with [NotImplementedError]:
    [Attribute.from_string] raises it and returns no attribute; a turn of
    the loop raises it whatever the rows collected so far, before the
    divider or after it; and [from_definition] raises it for a body whose
    lines before the declaration parse. *)
Theorem index_declaration_unsupported (unique : bool) (columns line : string) :
  all_chars is_column_char columns = true ->
  PyStr.strip line = index_declaration unique columns ->
  Attribute.from_string attribute_parser (index_declaration unique columns)
  = Raise NotImplementedError
  /\ (forall st : Table.locals,
        Table.loop_body attribute_parser st line = Raise NotImplementedError)
  /\ (forall (name definition : string) (tier : option string)
             (pre post : list string),
        PyStr.split definition LF = Ok (pre ++ line :: post)%list ->
        Forall (row_ok attribute_parser) pre ->
        Table.from_definition attribute_parser name definition tier
        = Raise NotImplementedError).
Proof.
  intros Hcols Hline.
  pose proof (index_declaration_row_error unique columns line Hcols Hline)
    as Herr.
  split; [|split].
  - unfold Attribute.from_string.
    now rewrite (index_declaration_matches unique columns Hcols).
  - intros st. now apply loop_body_raises.
  - intros name definition tier pre post Hs Hpre.
    now apply (from_definition_raises_first_error name definition tier
                 pre post line).
Qed.

(** *** The keys and the comment the loop collects *)

Ltac loop_body_cases line :=
  unfold Table.loop_body;
  destruct (Nat.eqb (String.length (PyStr.strip line)) 0) eqn:Hblank;
  [|destruct (PyStr.startswith (PyStr.strip line) "#") eqn:Hhash;
    [destruct (Comment.from_string (PyStr.strip line))
    |destruct (PyStr.contains "---" (PyStr.strip line)) eqn:Hdivider;
      [|destruct (PyStr.contains "->" (PyStr.strip line)) eqn:Harrow;
        [destruct (Dependency.from_string (PyStr.strip line))
        |destruct (Attribute.from_string attribute_parser
                     (PyStr.strip line))]]]];
  cbn [bind].

(** After the divider, no turn of the loop touches the keys. *)
Lemma loop_body_passed_keys (st st' : Table.locals) (line : string) :
  Table.passed_keys st = true ->
  Table.loop_body attribute_parser st line = Ok st' ->
  Table.passed_keys st' = true /\ Table.l_keys st' = Table.l_keys st.
Proof.
  intros Hp. loop_body_cases line; intros H; inversion H; subst; clear H;
    unfold Table.append_row; try rewrite Hp; simpl; auto.
Qed.

Lemma loop_passed_keys (st st' : Table.locals) (lines : list string) :
  Table.passed_keys st = true ->
  Table.loop attribute_parser st lines = Ok st' ->
  Table.l_keys st' = Table.l_keys st.
Proof.
  revert st. induction lines as [|line lines IH]; intros st Hp H; simpl in H.
  - now inversion H.
  - destruct (Table.loop_body attribute_parser st line) as [st1|e] eqn:H1;
      [|discriminate].
    destruct (loop_body_passed_keys st st1 line Hp H1) as [Hp1 Hk1].
    cbn [bind] in H. rewrite (IH st1 Hp1 H). exact Hk1.
Qed.

Lemma loop_no_key_line (st st' : Table.locals) (lines : list string) :
  no_key_line lines = true ->
  Table.loop attribute_parser st lines = Ok st' ->
  Table.l_keys st' = Table.l_keys st.
Proof.
  revert st. induction lines as [|line lines IH]; intros st Hn H;
    simpl in Hn, H.
  - now inversion H.
  - destruct (is_blank_line line) eqn:Hb; simpl in Hn.
    { rewrite (loop_body_blank st line Hb) in H. now apply IH. }
    destruct (is_comment_line line) eqn:Hc.
    { rewrite (loop_body_comment st line Hc) in H.
      destruct (Comment.from_string (PyStr.strip line)) as [c|e];
        [|discriminate].
      cbn [bind] in H. now rewrite (IH _ Hn H). }
    rewrite (loop_body_divider st line Hn) in H. cbn [bind] in H.
    exact (loop_passed_keys (Table.Locals true _ _ _) st' lines eq_refl H).
Qed.

(** A line that is no comment leaves the comment as it is. *)
Lemma loop_body_keeps_comment (st st' : Table.locals) (line : string) :
  is_comment_line line = false ->
  Table.loop_body attribute_parser st line = Ok st' ->
  Table.l_comment st' = Table.l_comment st.
Proof.
  unfold is_comment_line. intros Hc.
  loop_body_cases line; intros H; inversion H; subst; clear H;
    try (cbn in Hc; discriminate);
    unfold Table.append_row; try destruct (Table.passed_keys st);
    reflexivity.
Qed.

Lemma loop_keeps_comment (st st' : Table.locals) (lines : list string) :
  Forall (fun line => is_comment_line line = false) lines ->
  Table.loop attribute_parser st lines = Ok st' ->
  Table.l_comment st' = Table.l_comment st.
Proof.
  intros Hl. revert st.
  induction Hl as [|line lines Hc _ IH]; intros st H; simpl in H.
  - now inversion H.
  - destruct (Table.loop_body attribute_parser st line) as [st1|e] eqn:H1;
      [|discriminate].
    cbn [bind] in H. rewrite (IH st1 H).
    exact (loop_body_keeps_comment st st1 line Hc H1).
Qed.

(** C8, as the code has it. Empty keys are not refused: for a body with no
    key line before the divider whose lines all parse, and a tier of
    [TIERS], [from_definition] returns a table whose keys are the empty
    list. *)
Theorem from_definition_accepts_empty_keys (name definition tier : string)
  (lines : list string) :
  PyStr.split definition LF = Ok lines ->
  no_key_line lines = true ->
  Forall (row_ok attribute_parser) lines ->
  literal_mem tier TIERS = true ->
  exists t : Table.t,
    Table.from_definition attribute_parser name definition (Some tier) = Ok t
    /\ Table.keys t = [].
Proof.
  intros Hs Hn Hl Ht.
  destruct (from_definition_returns name definition tier lines Hs Hl Ht)
    as (st & Hst & ->).
  eexists. split; [reflexivity|]. simpl.
  exact (loop_no_key_line Table.start st lines Hn Hst).
Qed.

(** C9, as the code has it. Every comment line is captured where it
    stands, a later one replacing an earlier one: for a body whose lines all
    parse and a tier of [TIERS], the comment of the table returned is the
    last comment line of the body, whatever stands before it, comments and
    key lines included. *)
Theorem last_comment_line_is_captured (name definition tier : string)
  (pre post : list string) (line : string) :
  PyStr.split definition LF = Ok (pre ++ line :: post)%list ->
  is_comment_line line = true ->
  Forall (fun l => is_comment_line l = false) post ->
  Forall (row_ok attribute_parser) (pre ++ line :: post)%list ->
  literal_mem tier TIERS = true ->
  exists (c : Comment.t) (t : Table.t),
    Comment.from_string (PyStr.strip line) = Ok c
    /\ Table.from_definition attribute_parser name definition (Some tier)
       = Ok t
    /\ Table.comment t = Some c.
Proof.
  intros Hs Hc Hpost Hl Ht.
  destruct (from_definition_returns name definition tier _ Hs Hl Ht)
    as (st & Hst & ->).
  rewrite loop_app in Hst.
  destruct (Table.loop attribute_parser Table.start pre) as [st1|e];
    [|discriminate].
  cbn [bind Table.loop] in Hst.
  rewrite (loop_body_comment st1 line Hc) in Hst.
  destruct (Comment.from_string (PyStr.strip line)) as [c|e];
    [|discriminate].
  cbn [bind] in Hst.
  exists c. eexists. split; [reflexivity|]. split; [reflexivity|]. simpl.
  now rewrite (loop_keeps_comment _ _ _ Hpost Hst).
Qed.

(** C10, as the code has it. A line that is not blank, does not start with
    [#] and has no [---] in it goes to the dependency parser when it has
    [->] anywhere; when it does not start with the marker [-> ], as an
    attribute line with [->] in its comment does not, the dependency parser
    raises [ParseError], and so does [from_definition] for a body whose
    lines before it parse. *)
Theorem arrow_line_goes_to_dependency (line : string) :
  is_blank_line line = false ->
  PyStr.startswith (PyStr.strip line) "#" = false ->
  PyStr.contains "---" (PyStr.strip line) = false ->
  PyStr.contains "->" (PyStr.strip line) = true ->
  (forall st : Table.locals,
     Table.loop_body attribute_parser st line
     = (d <- Dependency.from_string (PyStr.strip line) ;;
        Ok (Table.append_row st (Table.RowDependency d))))
  /\ (PyStr.startswith (PyStr.strip line) "-> " = false ->
      forall (name definition : string) (tier : option string)
             (pre post : list string),
        PyStr.split definition LF = Ok (pre ++ line :: post)%list ->
        Forall (row_ok attribute_parser) pre ->
        Table.from_definition attribute_parser name definition tier
        = format_raise Parse.dependency_format (PyStr.strip line)).
Proof.
  intros Hb Hh Hd Ha. split.
  - intros st. now apply loop_body_dependency.
  - intros Hm name definition tier pre post Hs Hpre.
    apply (from_definition_raises_first_error name definition tier
             pre post line); [exact Hs|exact Hpre|].
    unfold row_error. unfold is_blank_line in Hb.
    rewrite Hb, Hh, Hd, Ha.
    unfold Dependency.from_string, Parse.parse_dependency.
    now rewrite (strip_prefix_None "-> " _ Hm).
Qed.

End Assembler.

(** ** The serializer *)

(** C5, as the code has it. For a dialect that is neither [python] nor, in
    any letter case, [matlab], [make] raises nothing and falls back on no
    dialect: it returns [None]. *)
Theorem make_unrecognized_dialect_returns_none (self : Table.t)
  (lang : string) :
  String.eqb lang "python" = false ->
  String.eqb (PyStr.lower lang) "matlab" = false ->
  Table.make self lang = Ok None.
Proof. unfold Table.make. intros -> ->. reflexivity. Qed.

(** The theorem at the dialect [rust]. *)
Lemma make_unrecognized_dialect_witness :
  String.eqb "rust" "python" = false
  /\ String.eqb (PyStr.lower "rust") "matlab" = false
  /\ Table.make session_table "rust" = Ok None.
Proof.
  split; [reflexivity|]. split; [reflexivity|].
  apply (make_unrecognized_dialect_returns_none session_table "rust");
    reflexivity.
Defined.

(** C5 as the spec has it fails: asked for the dialect [rust], [make]
    returns [None] and raises no exception. *)
Lemma make_unrecognized_dialect_no_error :
  Table.make session_table "rust" = Ok None
  /\ forall e : exn, Table.make session_table "rust" <> Raise e.
Proof. split; [reflexivity|]. intros e. vm_compute. discriminate. Qed.

(** The two dialects of the code, [matlab] in any letter case. *)
Lemma make_recognized_dialects :
  is_ok (Table.make session_table "python") = true
  /\ Table.make session_table "MATLAB" = Table.make session_table "matlab"
  /\ Table.make session_table "Python" = Ok None.
Proof. repeat split. Qed.

(** ** Examples over the parser of attribute lines *)

(** The theorem at a body of two key lines, the second of them malformed. *)
Lemma from_definition_fail_fast_witness :
  PyStr.split two_keys_second_malformed LF = Ok ["id : int"; "x -> y"; "---"]
  /\ exists pre line post e,
       ["id : int"; "x -> y"; "---"] = (pre ++ line :: post)%list
       /\ Forall (row_ok AttributeParser.parseString) pre
       /\ row_error AttributeParser.parseString line = Some e
       /\ Table.from_definition AttributeParser.parseString "Scan"
            two_keys_second_malformed None = Raise e
       /\ is_ok (Table.from_definition AttributeParser.parseString "Scan"
                   two_keys_second_malformed None) = false.
Proof.
  split; [reflexivity|].
  apply (from_definition_fail_fast AttributeParser.parseString "Scan"
           two_keys_second_malformed None ["id : int"; "x -> y"; "---"]).
  - reflexivity.
  - apply Exists_cons_tl, Exists_cons_hd. vm_compute. discriminate.
Defined.

(** The second key line is malformed: the error is that of this line, and
    the first key is in no result. *)
Lemma second_key_line_malformed (tier : option string) :
  Table.from_definition AttributeParser.parseString "Scan"
    two_keys_second_malformed tier
  = format_raise Parse.dependency_format "x -> y".
Proof. destruct tier; vm_compute; reflexivity. Qed.

(** The declaration [unique index (a, b)], indented. *)
Lemma index_declaration_unsupported_witness :
  all_chars is_column_char "a, b" = true
  /\ PyStr.strip "  unique index (a, b)" = index_declaration true "a, b"
  /\ Attribute.from_string AttributeParser.parseString
       (index_declaration true "a, b") = Raise NotImplementedError
  /\ (forall st : Table.locals,
        Table.loop_body AttributeParser.parseString st "  unique index (a, b)"
        = Raise NotImplementedError)
  /\ (forall (name definition : string) (tier : option string)
             (pre post : list string),
        PyStr.split definition LF
        = Ok (pre ++ "  unique index (a, b)" :: post)%list ->
        Forall (row_ok AttributeParser.parseString) pre ->
        Table.from_definition AttributeParser.parseString name definition tier
        = Raise NotImplementedError).
Proof.
  split; [reflexivity|]. split; [reflexivity|].
  apply (index_declaration_unsupported AttributeParser.parseString true
           "a, b" "  unique index (a, b)"); reflexivity.
Defined.

(** An index line in the key section, and one in the attribute section. *)
Lemma index_line_in_either_section :
  Table.from_definition AttributeParser.parseString "Scan"
    ("id : int" ++ LF ++ "unique index (a, b)" ++ LF ++ "---" ++ LF
     ++ "a : int") (Some "Manual")
  = Raise NotImplementedError
  /\ Table.from_definition AttributeParser.parseString "Scan"
       ("id : int" ++ LF ++ "---" ++ LF ++ "a : int" ++ LF ++ "index (a)")
       (Some "Manual")
     = Raise NotImplementedError.
Proof. split; vm_compute; reflexivity. Qed.

(** C8 as the spec has it fails: this body has no key line before the
    divider, and [from_definition] returns a table whose keys are empty. *)
Lemma from_definition_empty_keys_returned :
  no_key_line ["# note"; "---"; "-> Session"] = true
  /\ Table.from_definition AttributeParser.parseString "Scan" no_keys_body
       (Some "Manual")
     = Ok (Table.Build "Scan" "Manual" (Some (Comment.Build "note")) []
             (Some [Table.RowDependency (Dependency.Build "Session")])).
Proof. split; vm_compute; reflexivity. Qed.

(** The theorem at a body that opens with a comment and the divider. *)
Lemma from_definition_accepts_empty_keys_witness :
  PyStr.split no_keys_body LF = Ok ["# note"; "---"; "-> Session"]
  /\ no_key_line ["# note"; "---"; "-> Session"] = true
  /\ Forall (row_ok AttributeParser.parseString)
       ["# note"; "---"; "-> Session"]
  /\ literal_mem "Manual" TIERS = true
  /\ exists t : Table.t,
       Table.from_definition AttributeParser.parseString "Scan" no_keys_body
         (Some "Manual") = Ok t
       /\ Table.keys t = [].
Proof.
  assert (Hl : Forall (row_ok AttributeParser.parseString)
                 ["# note"; "---"; "-> Session"])
    by (repeat constructor).
  split; [reflexivity|]. split; [reflexivity|]. split; [exact Hl|].
  split; [reflexivity|].
  apply (from_definition_accepts_empty_keys AttributeParser.parseString
           "Scan" no_keys_body "Manual" ["# note"; "---"; "-> Session"]);
    [reflexivity|reflexivity|exact Hl|reflexivity].
Defined.

(** C9 as the spec has it fails: of two comment lines before the key line
    the table keeps the second, and a comment line after a key line is
    captured as well. *)
Lemma later_comment_replaces_first :
  Table.from_definition AttributeParser.parseString "Scan" two_comments_body
    (Some "Manual")
  = Ok (Table.Build "Scan" "Manual" (Some (Comment.Build "second"))
          [Table.RowDependency (Dependency.Build "Session")] (Some []))
  /\ Table.from_definition AttributeParser.parseString "Scan"
       ("# first" ++ LF ++ "-> Session" ++ LF ++ "# late") (Some "Manual")
     = Ok (Table.Build "Scan" "Manual" (Some (Comment.Build "late"))
             [Table.RowDependency (Dependency.Build "Session")] (Some [])).
Proof. split; vm_compute; reflexivity. Qed.

(** The theorem at a body of two comment lines and a key line. *)
Lemma last_comment_line_is_captured_witness :
  PyStr.split two_comments_body LF
  = Ok (["# first"] ++ "# second" :: ["-> Session"])%list
  /\ is_comment_line "# second" = true
  /\ Forall (fun l => is_comment_line l = false) ["-> Session"]
  /\ Forall (row_ok AttributeParser.parseString)
       (["# first"] ++ "# second" :: ["-> Session"])%list
  /\ literal_mem "Manual" TIERS = true
  /\ exists (c : Comment.t) (t : Table.t),
       Comment.from_string (PyStr.strip "# second") = Ok c
       /\ Table.from_definition AttributeParser.parseString "Scan"
            two_comments_body (Some "Manual") = Ok t
       /\ Table.comment t = Some c.
Proof.
  assert (Hp : Forall (fun l => is_comment_line l = false) ["-> Session"])
    by (repeat constructor).
  assert (Hl : Forall (row_ok AttributeParser.parseString)
                 (["# first"] ++ "# second" :: ["-> Session"])%list)
    by (repeat constructor).
  split; [reflexivity|]. split; [reflexivity|]. split; [exact Hp|].
  split; [exact Hl|]. split; [reflexivity|].
  apply (last_comment_line_is_captured AttributeParser.parseString "Scan"
           two_comments_body "Manual" ["# first"] ["-> Session"] "# second");
    [reflexivity|reflexivity|exact Hp|exact Hl|reflexivity].
Defined.

(** C10 as stated fails: this attribute line is not blank, does not start
    with [#] and has [->] in its comment, and it has [---] as well: it is
    read as the divider, the dependency parser is not called, and the table
    is returned without it. *)
Lemma long_arrow_line_is_divider :
  is_blank_line long_arrow_in_comment = false
  /\ PyStr.startswith (PyStr.strip long_arrow_in_comment) "#" = false
  /\ PyStr.contains "->" (PyStr.strip long_arrow_in_comment) = true
  /\ is_ok (Dependency.from_string (PyStr.strip long_arrow_in_comment)) = false
  /\ Table.from_definition AttributeParser.parseString "Scan"
       long_arrow_in_comment (Some "Manual")
     = Ok (Table.Build "Scan" "Manual" None [] (Some [])).
Proof. repeat split; vm_compute; reflexivity. Qed.

(** The theorem at an attribute line with an arrow in its comment. *)
Lemma arrow_line_goes_to_dependency_witness :
  is_blank_line arrow_in_comment = false
  /\ PyStr.startswith (PyStr.strip arrow_in_comment) "#" = false
  /\ PyStr.contains "---" (PyStr.strip arrow_in_comment) = false
  /\ PyStr.contains "->" (PyStr.strip arrow_in_comment) = true
  /\ (forall st : Table.locals,
        Table.loop_body AttributeParser.parseString st arrow_in_comment
        = (d <- Dependency.from_string (PyStr.strip arrow_in_comment) ;;
           Ok (Table.append_row st (Table.RowDependency d))))
  /\ (PyStr.startswith (PyStr.strip arrow_in_comment) "-> " = false ->
      forall (name definition : string) (tier : option string)
             (pre post : list string),
        PyStr.split definition LF
        = Ok (pre ++ arrow_in_comment :: post)%list ->
        Forall (row_ok AttributeParser.parseString) pre ->
        Table.from_definition AttributeParser.parseString name definition tier
        = format_raise Parse.dependency_format (PyStr.strip arrow_in_comment)).
Proof.
  split; [reflexivity|]. split; [reflexivity|]. split; [reflexivity|].
  split; [reflexivity|].
  apply (arrow_line_goes_to_dependency AttributeParser.parseString
           arrow_in_comment); reflexivity.
Defined.

(** The attribute line with [->] in its comment, in a body: the parse
    fails with the dependency parser's [ParseError]; the same line without
    the arrow is an attribute of the table. *)
Lemma arrow_in_comment_fails_the_table :
  Attribute.from_string AttributeParser.parseString arrow_in_comment
  = Ok (Attribute.Build "a" (DJ_Type.Build "int" None false)
          (Some "x -> y") None)
  /\ Table.from_definition AttributeParser.parseString "Scan"
       ("-> Session" ++ LF ++ "---" ++ LF ++ arrow_in_comment)
       (Some "Manual")
     = format_raise Parse.dependency_format arrow_in_comment
  /\ is_ok (Table.from_definition AttributeParser.parseString "Scan"
              ("-> Session" ++ LF ++ "---" ++ LF ++ "a : int # x to y")
              (Some "Manual")) = true.
Proof. repeat split; vm_compute; reflexivity. Qed.

(** The attribute rows of the spec's examples, parsed and rendered. *)
Lemma attribute_round_trip_examples :
  (a <- Attribute.from_string AttributeParser.parseString
          "age : int # years old" ;; Ok (Attribute.make a))
  = Ok "age : int # years old"
  /\ (a <- Attribute.from_string AttributeParser.parseString
             "age = 0 : int # years old" ;; Ok (Attribute.make a))
     = Ok "age = 0 : int # years old".
Proof. split; vm_compute; reflexivity. Qed.

(** * Further properties of the code *)

(** ** More lemmas on strings *)

Lemma append_assoc (a b c : string) : (a ++ b) ++ c = a ++ b ++ c.
Proof. induction a as [|x a IH]; simpl; [reflexivity|now rewrite IH]. Qed.

Lemma append_empty_r (a : string) : a ++ EmptyString = a.
Proof. induction a as [|x a IH]; simpl; [reflexivity|now rewrite IH]. Qed.

Lemma strip_prefix_Some (p s rest : string) :
  PyStr.strip_prefix p s = Some rest <-> s = p ++ rest.
Proof.
  revert s. induction p as [|a p IH]; intros s; simpl.
  - split; [now intros [= ->]|now intros ->].
  - destruct s as [|b s].
    + split; discriminate.
    + destruct (Ascii.eqb a b) eqn:Hab.
      * apply Ascii.eqb_eq in Hab. subst b. rewrite IH.
        split; [now intros ->|now intros [= ->]].
      * apply Ascii.eqb_neq in Hab. split; [discriminate|].
        intros [= -> _]. congruence.
Qed.

Lemma prefix_append (p rest : string) : String.prefix p (p ++ rest) = true.
Proof.
  induction p as [|a p IH]; simpl.
  - now destruct rest.
  - destruct (ascii_dec a a); [exact IH|congruence].
Qed.

Lemma literal_mem_In (v : string) (choices : list string) :
  literal_mem v choices = true <-> In v choices.
Proof.
  unfold literal_mem. rewrite existsb_exists. split.
  - intros (x & Hx & Heq). apply String.eqb_eq in Heq. now subst.
  - intros H. exists v. split; [exact H|apply String.eqb_refl].
Qed.

(** ** The rows *)

Lemma comment_from_string_inv (input : string) (c : Comment.t) :
  Comment.from_string input = Ok c ->
  Comment.comment c <> EmptyString /\ input = Comment.make c.
Proof.
  unfold Comment.from_string, Parse.parse_comment.
  destruct (PyStr.strip_prefix "# " input) as [rest|] eqn:Hp; [|discriminate].
  apply strip_prefix_Some in Hp. subst input.
  destruct rest as [|x rest]; [discriminate|].
  intros [= <-]. split; [discriminate|reflexivity].
Qed.

Lemma dependency_from_string_inv (input : string) (d : Dependency.t) :
  Dependency.from_string input = Ok d ->
  Dependency.dependency d <> EmptyString /\ input = Dependency.make d.
Proof.
  unfold Dependency.from_string, Parse.parse_dependency.
  destruct (PyStr.strip_prefix "-> " input) as [rest|] eqn:Hp;
    [|discriminate].
  apply strip_prefix_Some in Hp. subst input.
  destruct rest as [|x rest]; [discriminate|].
  intros [= <-]. split; [discriminate|reflexivity].
Qed.

(** X1. [Comment.from_string] and [Comment.make] are inverse to each other
    on the comments with a text: a line parses to [c] exactly when [c] has
    a text and the line is what [c] renders to; the lines that do not parse
    raise the [ParseError] of the comment format. *)
Theorem comment_from_string_make (input : string) :
  (forall c : Comment.t,
     Comment.from_string input = Ok c
     <-> Comment.comment c <> EmptyString /\ input = Comment.make c)
  /\ (forall e : exn,
        Comment.from_string input = Raise e ->
        e = ParseError
              ("Could not parse table row." ++ LF ++ "Expected Format: "
               ++ "# {comment}" ++ LF ++ "Got String: " ++ input)).
Proof.
  split.
  - intros [c]. unfold Comment.from_string, Parse.parse_comment.
    change (Comment.make (Comment.Build c)) with ("# " ++ c).
    cbn [Comment.comment].
    destruct (PyStr.strip_prefix "# " input) as [rest|] eqn:Hp.
    + apply strip_prefix_Some in Hp. subst input.
      destruct rest as [|x rest]; cbn [Parse.nonempty].
      * split; [discriminate|]. intros [Hc Heq].
        injection Heq as <-. congruence.
      * split.
        -- intros [= <-]. split; [discriminate|reflexivity].
        -- intros [_ Heq]. injection Heq as <-. reflexivity.
    + split; [discriminate|]. intros [_ Heq].
      apply (strip_prefix_Some "# " input c) in Heq. congruence.
  - intros e. unfold Comment.from_string.
    destruct (Parse.parse_comment input); [discriminate|].
    unfold format_raise. now intros [= <-].
Qed.

(** X2. [Dependency.from_string] and [Dependency.make] are inverse to each
    other on the dependencies with a name: a line parses to [d] exactly
    when [d] has a name and the line is what [d] renders to; the lines that
    do not parse raise the [ParseError] of the dependency format. *)
Theorem dependency_from_string_make (input : string) :
  (forall d : Dependency.t,
     Dependency.from_string input = Ok d
     <-> Dependency.dependency d <> EmptyString
         /\ input = Dependency.make d)
  /\ (forall e : exn,
        Dependency.from_string input = Raise e ->
        e = ParseError
              ("Could not parse table row." ++ LF ++ "Expected Format: "
               ++ "-> {dependency}" ++ LF ++ "Got String: " ++ input)).
Proof.
  split.
  - intros [d]. unfold Dependency.from_string, Parse.parse_dependency.
    change (Dependency.make (Dependency.Build d)) with ("-> " ++ d).
    cbn [Dependency.dependency].
    destruct (PyStr.strip_prefix "-> " input) as [rest|] eqn:Hp.
    + apply strip_prefix_Some in Hp. subst input.
      destruct rest as [|x rest]; cbn [Parse.nonempty].
      * split; [discriminate|]. intros [Hc Heq].
        injection Heq as <-. congruence.
      * split.
        -- intros [= <-]. split; [discriminate|reflexivity].
        -- intros [_ Heq]. injection Heq as <-. reflexivity.
    + split; [discriminate|]. intros [_ Heq].
      apply (strip_prefix_Some "-> " input d) in Heq. congruence.
  - intros e. unfold Dependency.from_string.
    destruct (Parse.parse_dependency input); [discriminate|].
    unfold format_raise. now intros [= <-].
Qed.

(** X3. [resolve_keys] returns the primary key of the first class that
    bears the dependency's name, raises [ResolutionError] with the name in
    its message when no class bears it, and passes on what
    [spawn_all_schema] raises. *)
Theorem resolve_keys_first_match (self : Dependency.t) :
  (forall (pre post : list TableMeta) (sch : TableMeta),
     Forall (fun c => class_name c <> Dependency.dependency self) pre ->
     class_name sch = Dependency.dependency self ->
     Dependency.resolve_keys (Ok (pre ++ sch :: post)%list) self
     = Ok (primary_key sch))
  /\ (forall schema : list TableMeta,
        Forall (fun c => class_name c <> Dependency.dependency self) schema ->
        Dependency.resolve_keys (Ok schema) self
        = Raise (ResolutionError
                   ("Could not resolve dependent schema "
                    ++ Dependency.dependency self)))
  /\ (forall e : exn, Dependency.resolve_keys (Raise e) self = Raise e).
Proof.
  assert (Hnone : forall l : list TableMeta,
             Forall (fun c => class_name c <> Dependency.dependency self) l ->
             filter (fun c => String.eqb (class_name c)
                                (Dependency.dependency self)) l = []).
  { intros l H. induction H as [|c l Hc _ IH]; simpl; [reflexivity|].
    apply String.eqb_neq in Hc. now rewrite Hc. }
  split; [|split].
  - intros pre post sch Hpre Hsch. unfold Dependency.resolve_keys.
    cbn [bind]. rewrite filter_app, (Hnone pre Hpre). simpl.
    apply String.eqb_eq in Hsch. now rewrite Hsch.
  - intros schema H. unfold Dependency.resolve_keys. cbn [bind].
    now rewrite (Hnone schema H).
  - reflexivity.
Qed.

(** ** The types *)

Lemma rstrip_by_absent (p : ascii -> bool) (c : ascii) (s : string) :
  PyStr.mem c s = false -> PyStr.mem c (PyStr.rstrip_by p s) = false.
Proof.
  induction s as [|d s IH]; simpl; intros H; [reflexivity|].
  apply orb_false_elim in H as [Hd Hs]. specialize (IH Hs).
  destruct (PyStr.rstrip_by p s) as [|x r].
  - destruct (p d); simpl; [reflexivity|now rewrite Hd].
  - cbn [PyStr.mem] in IH |- *. now rewrite Hd, IH.
Qed.

Lemma init_returns (kind : string) (raw : RawArgs) (u : bool)
  (d : DJ_Type.t) :
  DJ_Type.init kind raw u = Ok d ->
  In kind DATATYPES /\ DJ_Type.datatype d = kind /\ DJ_Type.unsigned d = u
  /\ validate_args raw = Some (DJ_Type.args d).
Proof.
  unfold DJ_Type.init.
  destruct (literal_mem kind DATATYPES) eqn:Hk; [|discriminate].
  destruct (validate_args raw) as [a|]; [|discriminate].
  intros [= <-]. apply literal_mem_In in Hk. now repeat split.
Qed.

Lemma from_string_inv (input : string) (d : DJ_Type.t) :
  DJ_Type.from_string input = Ok d ->
  In (DJ_Type.datatype d) DATATYPES
  /\ DJ_Type.unsigned d = PyStr.contains "unsigned" input
  /\ PyStr.contains "@" input = false.
Proof.
  intros H. rewrite contains_char.
  destruct (PyStr.mem "@" input) eqn:Hat.
  { destruct (from_string_at_raises input Hat) as [E|E];
      rewrite E in H; discriminate. }
  revert H. unfold DJ_Type.from_string. cbv zeta.
  set (u := PyStr.contains "unsigned" input).
  set (input' := if u then PyStr.rstrip " unsigned" input else input).
  assert (Hat' : PyStr.mem "@" input' = false).
  { subst input'. destruct u; [|exact Hat]. now apply rstrip_by_absent. }
  rewrite contains_char, Hat'.
  destruct (Parse.parse_parameterized (PyStr.strip input'))
    as [[kind args]|].
  - destruct (PyStr.contains "," args); cbn [PyStr.split bind]; intros H;
      apply init_returns in H as (Hk & Hd & Hu & _); rewrite Hd, Hu;
      now repeat split.
  - intros H. apply init_returns in H as (Hk & Hd & Hu & _).
    rewrite Hd, Hu. now repeat split.
Qed.

(** X4. What [DJ_Type.from_string] returns is a type whose keyword is one
    of [DATATYPES], whose unsigned flag tells whether [unsigned] occurs in
    the token, and the token has no [@]. *)
Theorem from_string_returns (input : string) (d : DJ_Type.t) :
  DJ_Type.from_string input = Ok d ->
  In (DJ_Type.datatype d) DATATYPES
  /\ DJ_Type.unsigned d = PyStr.contains "unsigned" input
  /\ PyStr.contains "@" input = false.
Proof.
  intros H. destruct (from_string_inv input d H) as (Hk & Hu & Hat).
  repeat split; assumption.
Qed.

(** The theorem at the token [decimal(4,2) unsigned]. *)
Lemma from_string_returns_witness :
  DJ_Type.from_string "decimal(4,2) unsigned"
  = Ok (DJ_Type.Build "decimal" (Some (ArgInts [4%Z; 2%Z])) true)
  /\ In "decimal" DATATYPES
  /\ true = PyStr.contains "unsigned" "decimal(4,2) unsigned"
  /\ PyStr.contains "@" "decimal(4,2) unsigned" = false.
Proof.
  split; [reflexivity|].
  apply (from_string_returns "decimal(4,2) unsigned"
           (DJ_Type.Build "decimal" (Some (ArgInts [4%Z; 2%Z])) true)).
  reflexivity.
Defined.

(** X5. A [filepath] type with arguments renders with an [@], and what it
    renders to is never parsed back: [from_string] raises on it. *)
Theorem filepath_make_not_parsed (d : DJ_Type.t) :
  DJ_Type.datatype d = "filepath" ->
  has_args d = true ->
  PyStr.startswith (DJ_Type.make d) "filepath@" = true
  /\ is_ok (DJ_Type.from_string (DJ_Type.make d)) = false.
Proof.
  destruct d as [kind a u]. unfold has_args.
  cbn [DJ_Type.datatype DJ_Type.args].
  intros -> Ha.
  assert (Hm : exists rest, DJ_Type.make (DJ_Type.Build "filepath" a u)
                            = "filepath@" ++ rest).
  { unfold DJ_Type.make. cbn [DJ_Type.datatype DJ_Type.args DJ_Type.unsigned].
    rewrite Ha. destruct a as [a|]; [|discriminate]. cbn [String.eqb].
    change (String.eqb "filepath" "filepath") with true. cbv iota.
    destruct u.
    - exists (str_args a ++ " unsigned"). reflexivity.
    - now exists (str_args a). }
  destruct Hm as [rest ->]. split; [apply prefix_append|].
  assert (H : PyStr.mem "@" ("filepath@" ++ rest) = true) by reflexivity.
  destruct (from_string_at_raises _ H) as [-> | ->]; reflexivity.
Qed.

(** The theorem at the filepath type of the store [store]. *)
Lemma filepath_make_not_parsed_witness :
  DJ_Type.make (DJ_Type.Build "filepath" (Some (ArgStrs ["store"])) false)
  = "filepath@['store']"
  /\ PyStr.startswith
       (DJ_Type.make
          (DJ_Type.Build "filepath" (Some (ArgStrs ["store"])) false))
       "filepath@" = true
  /\ is_ok (DJ_Type.from_string
              (DJ_Type.make
                 (DJ_Type.Build "filepath" (Some (ArgStrs ["store"])) false)))
     = false.
Proof.
  split; [reflexivity|].
  apply (filepath_make_not_parsed
           (DJ_Type.Build "filepath" (Some (ArgStrs ["store"])) false));
    reflexivity.
Defined.

Lemma make_without_args (kind : string) (a : option Args) (u : bool) :
  args_truthy a = false ->
  DJ_Type.make (DJ_Type.Build kind a u)
  = if u then kind ++ " unsigned" else kind.
Proof.
  unfold DJ_Type.make. cbn [DJ_Type.datatype DJ_Type.args DJ_Type.unsigned].
  intros ->. now destruct a.
Qed.

(** X6. A type whose arguments are [None], [0] or an empty list renders as
    its keyword alone, with the unsigned suffix when it is unsigned. What
    it renders to parses to the type without arguments, so that [0] and the
    empty list are lost; and when it is unsigned, the four keywords that end
    in [e] ([date], [time], [datetime], [double]) are not parsed back at
    all, [rstrip] taking their last letter with the suffix. *)
Theorem make_from_string_without_args (kind : string) (a : option Args) :
  In kind DATATYPES ->
  args_truthy a = false ->
  DJ_Type.from_string (DJ_Type.make (DJ_Type.Build kind a false))
  = Ok (DJ_Type.Build kind None false)
  /\ DJ_Type.from_string (DJ_Type.make (DJ_Type.Build kind a true))
     = if PyStr.endswith kind "e"
       then Raise (ValidationError "DJ_Type" "datatype")
       else Ok (DJ_Type.Build kind None true).
Proof.
  intros Hk Ha. rewrite !(make_without_args kind a _ Ha).
  unfold DATATYPES in Hk. simpl in Hk.
  repeat (destruct Hk as [<-|Hk]; [split; vm_compute; reflexivity|]).
  contradiction.
Qed.

(** The theorem at [char(0)]. *)
Lemma make_from_string_without_args_witness :
  In "char" DATATYPES
  /\ args_truthy (Some (ArgInt 0)) = false
  /\ DJ_Type.from_string
       (DJ_Type.make (DJ_Type.Build "char" (Some (ArgInt 0)) false))
     = Ok (DJ_Type.Build "char" None false)
  /\ DJ_Type.from_string
       (DJ_Type.make (DJ_Type.Build "char" (Some (ArgInt 0)) true))
     = if PyStr.endswith "char" "e"
       then Raise (ValidationError "DJ_Type" "datatype")
       else Ok (DJ_Type.Build "char" None true).
Proof.
  assert (Hk : In "char" DATATYPES) by (apply literal_mem_In; reflexivity).
  split; [exact Hk|]. split; [reflexivity|].
  apply (make_from_string_without_args "char" (Some (ArgInt 0)) Hk).
  reflexivity.
Defined.

(** ** [str] and [int] of the integers *)

Lemma all_chars_impl (p q : ascii -> bool) (s : string) :
  (forall c, p c = true -> q c = true) ->
  all_chars p s = true -> all_chars q s = true.
Proof.
  intros Hpq. induction s as [|c s IH]; simpl; [reflexivity|].
  intros H. apply andb_true_iff in H as [Hc Hs].
  now rewrite (Hpq c Hc), (IH Hs).
Qed.

Lemma all_chars_app (p : ascii -> bool) (a b : string) :
  all_chars p (a ++ b) = all_chars p a && all_chars p b.
Proof.
  induction a as [|c a IH]; simpl; [reflexivity|].
  now rewrite IH, andb_assoc.
Qed.

Lemma rstrip_by_none (p : ascii -> bool) (s : string) :
  all_chars (fun c => negb (p c)) s = true -> PyStr.rstrip_by p s = s.
Proof.
  induction s as [|c s IH]; simpl; [reflexivity|].
  intros H. apply andb_true_iff in H as [Hc Hs]. rewrite (IH Hs).
  apply negb_true_iff in Hc. rewrite Hc. now destruct s.
Qed.

Lemma lstrip_by_none (p : ascii -> bool) (s : string) :
  all_chars (fun c => negb (p c)) s = true -> PyStr.lstrip_by p s = s.
Proof.
  destruct s as [|c s]; simpl; [reflexivity|].
  intros H. apply andb_true_iff in H as [Hc _].
  apply negb_true_iff in Hc. now rewrite Hc.
Qed.

Lemma strip_none (s : string) :
  all_chars (fun c => negb (PyStr.isspace c)) s = true -> PyStr.strip s = s.
Proof.
  intros H. unfold PyStr.strip.
  now rewrite (lstrip_by_none _ s H), (rstrip_by_none _ s H).
Qed.

Lemma num_char_no_space (c : ascii) :
  is_num_char c = true -> negb (PyStr.isspace c) = true.
Proof.
  destruct c as [[] [] [] [] [] [] [] []]; vm_compute;
    first [reflexivity|discriminate].
Qed.

Lemma num_char_no_int_space (c : ascii) :
  is_num_char c = true -> negb (PyStr.int_isspace c) = true.
Proof.
  destruct c as [[] [] [] [] [] [] [] []]; vm_compute;
    first [reflexivity|discriminate].
Qed.

Lemma string_of_uint_digits (d : Decimal.uint) :
  all_chars PyStr.is_digit (NilEmpty.string_of_uint d) = true.
Proof. induction d; simpl; try reflexivity; exact IHd. Qed.

Lemma to_uint_not_nil (p : positive) : Pos.to_uint p <> Decimal.Nil.
Proof.
  intros H. pose proof (DecimalPos.Unsigned.of_to p) as E.
  rewrite H in E. discriminate.
Qed.

Lemma str_int_chars (n : Z) :
  all_chars is_num_char (PyStr.str_int n) = true
  /\ PyStr.str_int n <> EmptyString.
Proof.
  assert (Hd : forall d, all_chars is_num_char (NilEmpty.string_of_uint d)
                         = true).
  { intros d. apply (all_chars_impl PyStr.is_digit);
      [|apply string_of_uint_digits].
    intros c Hc. unfold is_num_char. now rewrite Hc. }
  assert (Hn : forall p, NilEmpty.string_of_uint (Pos.to_uint p)
                         <> EmptyString).
  { intros p. pose proof (to_uint_not_nil p).
    destruct (Pos.to_uint p); simpl; congruence. }
  unfold PyStr.str_int. destruct n as [|p|p]; simpl.
  - split; [reflexivity|discriminate].
  - unfold NilZero.string_of_uint. pose proof (to_uint_not_nil p) as Hp.
    specialize (Hn p). specialize (Hd (Pos.to_uint p)).
    destruct (Pos.to_uint p); try congruence; now split.
  - unfold NilZero.string_of_uint. pose proof (to_uint_not_nil p) as Hp.
    specialize (Hd (Pos.to_uint p)).
    destruct (Pos.to_uint p); try congruence;
      (split; [exact Hd|discriminate]).
Qed.

Lemma digits_go_acc (d : Decimal.uint) (a : positive) :
  PyStr.digits_go true (Z.pos a) (NilEmpty.string_of_uint d)
  = Some (Z.pos (Pos.of_uint_acc d a)).
Proof.
  revert a. induction d; intros a;
    cbn [NilEmpty.string_of_uint Pos.of_uint_acc];
    try reflexivity;
    cbn [PyStr.digits_go];
    match goal with
    | |- context [PyStr.is_digit ?c] =>
        change (PyStr.is_digit c) with true; cbv iota
    end;
    rewrite <- IHd; f_equal; vm_compute PyStr.digit_val; lia.
Qed.

Lemma digits_go_zero (d : Decimal.uint) (prev : bool) :
  (d = Decimal.Nil -> prev = true) ->
  PyStr.digits_go prev 0 (NilEmpty.string_of_uint d)
  = Some (Z.of_N (Pos.of_uint d)).
Proof.
  revert prev. induction d; intros prev Hp;
    cbn [NilEmpty.string_of_uint Pos.of_uint].
  - rewrite (Hp eq_refl). reflexivity.
  - cbn [PyStr.digits_go]. change (PyStr.is_digit "0") with true. cbv iota.
    change (10 * 0 + PyStr.digit_val "0")%Z with 0%Z.
    apply IHd. reflexivity.
  - apply (digits_go_acc d 1).
  - apply (digits_go_acc d 2).
  - apply (digits_go_acc d 3).
  - apply (digits_go_acc d 4).
  - apply (digits_go_acc d 5).
  - apply (digits_go_acc d 6).
  - apply (digits_go_acc d 7).
  - apply (digits_go_acc d 8).
  - apply (digits_go_acc d 9).
Qed.

Lemma digits_go_to_uint (p : positive) :
  PyStr.digits_go false 0 (NilEmpty.string_of_uint (Pos.to_uint p))
  = Some (Z.pos p).
Proof.
  rewrite digits_go_zero.
  - now rewrite DecimalPos.Unsigned.of_to.
  - intros H. now apply to_uint_not_nil in H.
Qed.

(** [int(str(n)) == n] *)
Lemma int_of_str_str_int (n : Z) : PyStr.int_of_str (PyStr.str_int n) = Some n.
Proof.
  unfold PyStr.int_of_str.
  assert (Hs : all_chars (fun c => negb (PyStr.int_isspace c))
                 (PyStr.str_int n) = true)
    by (apply (all_chars_impl is_num_char);
        [apply num_char_no_int_space|apply str_int_chars]).
  rewrite (lstrip_by_none _ _ Hs), (rstrip_by_none _ _ Hs).
  unfold PyStr.str_int. destruct n as [|p|p]; cbn [Z.to_int].
  - reflexivity.
  - cbn [NilZero.string_of_int]. unfold NilZero.string_of_uint.
    pose proof (to_uint_not_nil p) as Hp.
    pose proof (digits_go_to_uint p) as Hg.
    destruct (Pos.to_uint p); try congruence; exact Hg.
  - cbn [NilZero.string_of_int]. unfold NilZero.string_of_uint.
    pose proof (to_uint_not_nil p) as Hp.
    pose proof (digits_go_to_uint p) as Hg.
    destruct (Pos.to_uint p); try congruence; cbv iota; rewrite Hg;
      reflexivity.
Qed.

(** ** Rendered types, parsed back *)

Lemma prefix_empty (s : string) : String.prefix EmptyString s = true.
Proof. now destruct s. Qed.

(** A text without [c] occurs in [a ++ c ++ b] only inside [a] or
    inside [b]. *)
Lemma prefix_app_sep (c : ascii) (sub a b : string) :
  PyStr.mem c sub = false ->
  String.prefix sub (a ++ String c b) = String.prefix sub a.
Proof.
  revert a. induction sub as [|x sub IH]; intros a H.
  - now rewrite !prefix_empty.
  - simpl in H. apply orb_false_elim in H as [Hx Hs].
    destruct a as [|y a]; simpl.
    + destruct (ascii_dec x c) as [->|_]; [|reflexivity].
      now rewrite Ascii.eqb_refl in Hx.
    + destruct (ascii_dec x y); [now apply IH|reflexivity].
Qed.

Lemma contains_app_sep (c : ascii) (sub a b : string) :
  PyStr.mem c sub = false -> sub <> EmptyString ->
  PyStr.contains sub (a ++ String c b)
  = PyStr.contains sub a || PyStr.contains sub b.
Proof.
  intros Hc Hn. induction a as [|y a IH].
  - cbn [append]. cbn [PyStr.contains].
    change (String c b) with (EmptyString ++ String c b).
    rewrite (prefix_app_sep c sub EmptyString b Hc).
    destruct sub; [congruence|reflexivity].
  - change (String y a ++ String c b) with (String y (a ++ String c b)).
    cbn [PyStr.contains]. rewrite IH.
    change (String y (a ++ String c b)) with (String y a ++ String c b).
    rewrite (prefix_app_sep c sub (String y a) b Hc).
    now rewrite orb_assoc.
Qed.

Lemma contains_app_r (sub a b : string) :
  PyStr.contains sub b = true -> PyStr.contains sub (a ++ b) = true.
Proof.
  intros H. induction a as [|y a IH]; [exact H|].
  change (String y a ++ b) with (String y (a ++ b)).
  cbn [PyStr.contains]. rewrite IH. apply orb_true_r.
Qed.

Lemma rstrip_by_all (p : ascii -> bool) (t : string) :
  all_chars p t = true -> PyStr.rstrip_by p t = EmptyString.
Proof.
  induction t as [|c t IH]; simpl; [reflexivity|].
  intros H. apply andb_true_iff in H as [Hc Ht]. now rewrite (IH Ht), Hc.
Qed.

Lemma rstrip_by_app_all (p : ascii -> bool) (s t : string) :
  all_chars p t = true ->
  PyStr.rstrip_by p (s ++ t) = PyStr.rstrip_by p s.
Proof.
  intros H. induction s as [|c s IH]; simpl.
  - now apply rstrip_by_all.
  - now rewrite IH.
Qed.

Lemma rstrip_by_last (p : ascii -> bool) (c : ascii) (s : string) :
  p c = false ->
  PyStr.rstrip_by p (s ++ String c EmptyString) = s ++ String c EmptyString.
Proof.
  intros H. induction s as [|d s IH]; simpl.
  - now rewrite H.
  - rewrite IH. now destruct s.
Qed.

Lemma strip_last_app (c : ascii) (s : string) :
  PyStr.strip_last c (s ++ String c EmptyString) = Some s.
Proof.
  induction s as [|d s IH]; simpl.
  - now rewrite Ascii.eqb_refl.
  - rewrite IH. now destruct s.
Qed.

Lemma split_go_absent (c : ascii) (cur s : string) :
  PyStr.mem c s = false ->
  PyStr.split_go c EmptyString 0 cur s = [cur ++ s].
Proof.
  revert cur. induction s as [|d s IH]; intros cur H.
  - simpl. now rewrite append_empty_r.
  - simpl in H. apply orb_false_elim in H as [Hd Hs].
    cbn [PyStr.split_go String.prefix].
    destruct (ascii_dec c d) as [->|_].
    + now rewrite Ascii.eqb_refl in Hd.
    + rewrite (IH _ Hs). now rewrite append_assoc.
Qed.

Lemma split_go_sep (c : ascii) (cur a b : string) :
  PyStr.mem c a = false ->
  PyStr.split_go c EmptyString 0 cur (a ++ String c b)
  = (cur ++ a) :: PyStr.split_go c EmptyString 0 EmptyString b.
Proof.
  revert cur. induction a as [|d a IH]; intros cur H.
  - cbn [append PyStr.split_go String.prefix String.length].
    destruct (ascii_dec c c); [|congruence].
    now rewrite prefix_empty, append_empty_r.
  - simpl in H. apply orb_false_elim in H as [Hd Hs].
    change (String d a ++ String c b) with (String d (a ++ String c b)).
    cbn [PyStr.split_go String.prefix].
    destruct (ascii_dec c d) as [->|_].
    + now rewrite Ascii.eqb_refl in Hd.
    + rewrite (IH _ Hs). now rewrite append_assoc.
Qed.

(** [sep.join(l).split(sep)] gives [l] back when no item has [sep]. *)
Lemma split_join (c : ascii) (l : list string) :
  l <> [] ->
  forallb (fun s => negb (PyStr.mem c s)) l = true ->
  PyStr.split (PyStr.join (String c EmptyString) l) (String c EmptyString)
  = Ok l.
Proof.
  unfold PyStr.split, PyStr.join. intros Hn H. f_equal.
  induction l as [|x l IH]; [congruence|].
  simpl in H. apply andb_true_iff in H as [Hx Hl].
  apply negb_true_iff in Hx.
  destruct l as [|y l].
  - simpl. now rewrite (split_go_absent c EmptyString x Hx).
  - change (String.concat (String c EmptyString) (x :: y :: l))
      with (x ++ String c (String.concat (String c EmptyString) (y :: l))).
    rewrite (split_go_sep c EmptyString x _ Hx). cbn [append].
    f_equal. apply IH; [discriminate|exact Hl].
Qed.

Lemma ints_of_strs_str_int (l : list Z) :
  ints_of_strs (map PyStr.str_int l) = Some l.
Proof.
  induction l as [|n l IH]; simpl; [reflexivity|].
  now rewrite int_of_str_str_int, IH.
Qed.

Lemma str_int_plain (n : Z) : plain_item (PyStr.str_int n) = true.
Proof.
  destruct (str_int_chars n) as [Hc _]. unfold plain_item.
  rewrite (all_chars_mem _ "," _ Hc eq_refl).
  rewrite (all_chars_mem _ "@" _ Hc eq_refl).
  now rewrite (contains_head_absent "u" _ _ (all_chars_mem _ "u" _ Hc eq_refl)).
Qed.

(** The items joined by commas have [@] or [unsigned] only where an item
    has it, and a comma as soon as there are two of them. *)
Lemma join_plain (l : list string) :
  forallb plain_item l = true ->
  PyStr.mem "@" (PyStr.join "," l) = false
  /\ PyStr.contains "unsigned" (PyStr.join "," l) = false.
Proof.
  unfold PyStr.join. induction l as [|x l IH]; intros H.
  - now split.
  - simpl in H. apply andb_true_iff in H as [Hx Hl].
    unfold plain_item in Hx.
    apply andb_true_iff in Hx as [Hx Hu]. apply andb_true_iff in Hx as [_ Ha].
    apply negb_true_iff in Ha, Hu.
    destruct l as [|y l]; [now split|].
    destruct (IH Hl) as [IHa IHu].
    change (String.concat "," (x :: y :: l))
      with (x ++ String "," (String.concat "," (y :: l))).
    split.
    + rewrite mem_app, Ha. cbn [PyStr.mem]. now rewrite IHa.
    + rewrite (contains_app_sep "," "unsigned" x _ eq_refl)
        by discriminate.
      now rewrite Hu, IHu.
Qed.

Lemma join_has_comma (x y : string) (l : list string) :
  PyStr.contains "," (PyStr.join "," (x :: y :: l)) = true.
Proof.
  rewrite contains_char. unfold PyStr.join.
  change (String.concat "," (x :: y :: l))
    with (x ++ String "," (String.concat "," (y :: l))).
  rewrite mem_app. cbn [PyStr.mem]. rewrite Ascii.eqb_refl.
  apply orb_true_r.
Qed.

(** What stands before the parenthesis of a rendered type is a keyword:
    it has no [unsigned], no [@], no space in front and no parenthesis of
    its own. *)
Lemma keyword_text (kind rest : string) :
  In kind DATATYPES ->
  PyStr.contains "unsigned" (kind ++ String "(" rest)
  = PyStr.contains "unsigned" rest
  /\ PyStr.mem "@" (kind ++ String "(" rest) = PyStr.mem "@" rest
  /\ PyStr.lstrip_by PyStr.isspace (kind ++ String "(" rest)
     = kind ++ String "(" rest
  /\ Parse.parse_parameterized (kind ++ String "(" rest)
     = match Parse.args_at rest with
       | Some args => Some (kind, args)
       | None => Parse.parameterized_go (kind ++ "(") rest
       end.
Proof.
  intros Hk. unfold DATATYPES in Hk. simpl in Hk.
  repeat (destruct Hk as [<-|Hk]; [repeat split; reflexivity|]).
  contradiction.
Qed.

(** A keyword, arguments between parentheses and the unsigned suffix, as
    [make] writes them, are read by [from_string] as they were written. *)
Lemma from_string_parenthesized (kind s : string) (u : bool) :
  In kind DATATYPES ->
  s <> EmptyString ->
  PyStr.mem "@" s = false ->
  PyStr.contains "unsigned" s = false ->
  DJ_Type.from_string
    (if u then (kind ++ "(" ++ s ++ ")") ++ " unsigned"
     else kind ++ "(" ++ s ++ ")")
  = if PyStr.contains "," s
    then parts <- PyStr.split s "," ;; DJ_Type.init kind (RawList parts) u
    else DJ_Type.init kind (RawStr s) u.
Proof.
  intros Hk Hs Hat Hun.
  destruct (keyword_text kind (s ++ ")") Hk) as (K1 & K2 & K3 & K4).
  change (String "(" (s ++ ")")) with ("(" ++ s ++ ")") in K1, K2, K3, K4.
  set (T := kind ++ "(" ++ s ++ ")") in *.
  assert (TE : T = (kind ++ "(" ++ s) ++ ")")
    by (subst T; now rewrite !append_assoc).
  assert (F1 : PyStr.contains "unsigned" T = false).
  { rewrite K1, (contains_app_sep ")" "unsigned" s EmptyString eq_refl)
      by discriminate.
    now rewrite Hun. }
  assert (F2 : PyStr.contains "@" T = false).
  { rewrite contains_char, K2, mem_app, Hat. reflexivity. }
  assert (F3 : PyStr.strip T = T).
  { unfold PyStr.strip. rewrite K3, TE. now apply rstrip_by_last. }
  assert (F4 : Parse.parse_parameterized T = Some (kind, s)).
  { rewrite K4. unfold Parse.args_at. rewrite strip_last_app.
    destruct s; [congruence|reflexivity]. }
  assert (F5 : PyStr.rstrip " unsigned" (T ++ " unsigned") = T).
  { unfold PyStr.rstrip. rewrite rstrip_by_app_all by reflexivity.
    rewrite TE. now apply rstrip_by_last. }
  unfold DJ_Type.from_string. cbv zeta. destruct u.
  - rewrite (contains_app_r "unsigned" T " unsigned" eq_refl).
    rewrite F5, F2, F3, F4. reflexivity.
  - rewrite F1, F2, F3, F4. reflexivity.
Qed.

Lemma forallb_plain_no_comma (l : list string) :
  forallb plain_item l = true ->
  forallb (fun s => negb (PyStr.mem "," s)) l = true.
Proof.
  induction l as [|x l IH]; simpl; [reflexivity|].
  intros H. apply andb_true_iff in H as [Hx Hl]. rewrite (IH Hl).
  unfold plain_item in Hx. apply andb_true_iff in Hx as [Hx _].
  apply andb_true_iff in Hx as [Hx _]. now rewrite Hx.
Qed.

Lemma forallb_plain_str_int (l : list Z) :
  forallb plain_item (map PyStr.str_int l) = true.
Proof.
  induction l as [|n l IH]; simpl; [reflexivity|].
  now rewrite str_int_plain, IH.
Qed.

(** The text [make] writes between the parentheses. *)
Lemma make_with_args (kind : string) (a : Args) (u : bool) :
  kind <> "filepath" ->
  args_truthy (Some a) = true ->
  DJ_Type.make (DJ_Type.Build kind (Some a) u)
  = let s := match a with
             | ArgInt n => PyStr.str_int n
             | _ => PyStr.join "," (str_items a)
             end in
    if u then (kind ++ "(" ++ s ++ ")") ++ " unsigned"
    else kind ++ "(" ++ s ++ ")".
Proof.
  intros Hk Ha. unfold DJ_Type.make.
  cbn [DJ_Type.datatype DJ_Type.args DJ_Type.unsigned]. rewrite Ha.
  apply String.eqb_neq in Hk. rewrite Hk.
  destruct a; reflexivity.
Qed.

(** X7. Rendering, then parsing: a type whose keyword is one of
    [DATATYPES] other than [filepath] and whose arguments are a non-zero
    integer, two or more integers, or two or more texts without comma, [@]
    and [unsigned] that are not all integers, signed or unsigned, renders
    to a token that [from_string] parses back to the same type. *)
Theorem make_from_string_args (kind : string) (a : Args) (u : bool) :
  In kind DATATYPES ->
  kind <> "filepath" ->
  readable_args a ->
  DJ_Type.from_string (DJ_Type.make (DJ_Type.Build kind (Some a) u))
  = Ok (DJ_Type.Build kind (Some a) u).
Proof.
  intros Hk Hf Ha.
  assert (Hm : literal_mem kind DATATYPES = true) by now apply literal_mem_In.
  destruct a as [n|l|l]; cbn [readable_args] in Ha.
  - rewrite make_with_args;
      [|exact Hf|simpl; now apply negb_true_iff, Z.eqb_neq].
    cbv zeta. pose proof (str_int_plain n) as Hp. unfold plain_item in Hp.
    apply andb_true_iff in Hp as [Hp Hu]. apply andb_true_iff in Hp as [Hc Hat].
    apply negb_true_iff in Hc, Hat, Hu.
    rewrite from_string_parenthesized;
      [|exact Hk|apply str_int_chars|exact Hat|exact Hu].
    rewrite contains_char, Hc. unfold DJ_Type.init, validate_args.
    now rewrite Hm, int_of_str_str_int.
  - destruct l as [|x [|y l]]; simpl in Ha; try lia.
    rewrite make_with_args; [|exact Hf|reflexivity].
    cbv zeta. cbn [str_items].
    pose proof (forallb_plain_str_int (x :: y :: l)) as Hp.
    destruct (join_plain _ Hp) as [Hat Hu].
    change (map PyStr.str_int (x :: y :: l))
      with (PyStr.str_int x :: PyStr.str_int y :: map PyStr.str_int l)
      in Hat, Hu |- *.
    pose proof (join_has_comma (PyStr.str_int x) (PyStr.str_int y)
                  (map PyStr.str_int l)) as Hc.
    rewrite from_string_parenthesized; [|exact Hk| |exact Hat|exact Hu].
    2:{ intros E. rewrite E in Hc. discriminate. }
    rewrite Hc.
    rewrite (split_join "," (PyStr.str_int x :: PyStr.str_int y
                             :: map PyStr.str_int l))
      by (try discriminate; apply forallb_plain_no_comma; exact Hp).
    cbn [bind]. unfold DJ_Type.init, validate_args. rewrite Hm.
    change (PyStr.str_int x :: PyStr.str_int y :: map PyStr.str_int l)
      with (map PyStr.str_int (x :: y :: l)).
    now rewrite ints_of_strs_str_int.
  - destruct Ha as (Hlen & Hp & Hi).
    destruct l as [|x [|y l]]; simpl in Hlen; try lia.
    rewrite make_with_args; [|exact Hf|reflexivity].
    cbv zeta. cbn [str_items].
    destruct (join_plain _ Hp) as [Hat Hu].
    pose proof (join_has_comma x y l) as Hc.
    rewrite from_string_parenthesized; [|exact Hk| |exact Hat|exact Hu].
    2:{ intros E. rewrite E in Hc. discriminate. }
    rewrite Hc.
    rewrite (split_join "," (x :: y :: l))
      by (try discriminate; apply forallb_plain_no_comma; exact Hp).
    cbn [bind]. unfold DJ_Type.init, validate_args. now rewrite Hm, Hi.
Qed.

(** The theorem at [decimal(4,2) unsigned]. *)
Lemma make_from_string_args_witness :
  In "decimal" DATATYPES
  /\ "decimal" <> "filepath"
  /\ readable_args (ArgInts [4%Z; 2%Z])
  /\ DJ_Type.make (DJ_Type.Build "decimal" (Some (ArgInts [4%Z; 2%Z])) true)
     = "decimal(4,2) unsigned"
  /\ DJ_Type.from_string
       (DJ_Type.make
          (DJ_Type.Build "decimal" (Some (ArgInts [4%Z; 2%Z])) true))
     = Ok (DJ_Type.Build "decimal" (Some (ArgInts [4%Z; 2%Z])) true).
Proof.
  assert (Hk : In "decimal" DATATYPES) by (apply literal_mem_In; reflexivity).
  assert (Hf : "decimal" <> "filepath") by discriminate.
  assert (Ha : readable_args (ArgInts [4%Z; 2%Z])) by (simpl; lia).
  split; [exact Hk|]. split; [exact Hf|]. split; [exact Ha|].
  split; [reflexivity|].
  exact (make_from_string_args "decimal" (ArgInts [4%Z; 2%Z]) true Hk Hf Ha).
Defined.

(** ** Attribute lines and the index pattern *)

Lemma strip_prefix_ci_mem (c : ascii) (p s rest : string) :
  all_chars (fun a => negb (Ascii.eqb (PyStr.lower_char a)
                              (PyStr.lower_char c))) p = true ->
  Re.strip_prefix_ci p s = Some rest ->
  PyStr.mem c s = PyStr.mem c rest.
Proof.
  revert s. induction p as [|a p IH]; intros s Hp; simpl.
  - now intros [= ->].
  - simpl in Hp. apply andb_true_iff in Hp as [Ha Hp].
    apply negb_true_iff in Ha.
    destruct s as [|b s]; [discriminate|].
    destruct (Ascii.eqb (PyStr.lower_char a) (PyStr.lower_char b)) eqn:Hab;
      [|discriminate].
    intros H. cbn [PyStr.mem]. rewrite (IH s Hp H).
    apply Ascii.eqb_eq in Hab.
    destruct (Ascii.eqb c b) eqn:Hcb; [|reflexivity].
    apply Ascii.eqb_eq in Hcb. subst b. rewrite Hab in Ha.
    now rewrite Ascii.eqb_refl in Ha.
Qed.

Lemma lstrip_by_mem (p : ascii -> bool) (c : ascii) (s : string) :
  p c = false -> PyStr.mem c (PyStr.lstrip_by p s) = PyStr.mem c s.
Proof.
  intros Hc. induction s as [|d s IH]; simpl; [reflexivity|].
  destruct (p d) eqn:Hd; [|reflexivity].
  rewrite IH. destruct (Ascii.eqb c d) eqn:Hcd; [|reflexivity].
  apply Ascii.eqb_eq in Hcd. congruence.
Qed.

(** X8. A line with a colon is never taken for an index declaration,
    whatever its name begins with: the index pattern does not match it,
    and when the attribute parser accepts the line and its type parses,
    [Attribute.from_string] returns the attribute. *)
Theorem colon_line_is_no_index (input : string) :
  PyStr.mem ":" input = true ->
  Re.match_index input = false
  /\ forall (attribute_parser : string -> result Pieces) (pieces : Pieces)
            (d : DJ_Type.t),
       attribute_parser (input ++ "#") = Ok pieces ->
       DJ_Type.from_string (piece_type pieces) = Ok d ->
       Attribute.from_string attribute_parser input
       = Ok (Attribute.Build (piece_name pieces) d
               (Some (PyStr.strip (PyStr.rstrip "#" (piece_comment pieces))))
               (piece_default pieces)).
Proof.
  intros Hc.
  assert (Ht : forall s, PyStr.mem ":" s = true -> Re.index_tail s = false).
  { intros s Hs. unfold Re.index_tail.
    destruct (Re.strip_prefix_ci "index" s) as [rest|] eqn:Hp;
      [|reflexivity].
    rewrite (strip_prefix_ci_mem ":" "index" s rest eq_refl Hp) in Hs.
    now rewrite Hs. }
  assert (Hm : Re.match_index input = false).
  { unfold Re.match_index. rewrite (Ht input Hc), orb_false_r.
    unfold Re.unique_index_tail.
    destruct (Re.strip_prefix_ci "unique" input) as [[|c rest]|] eqn:Hp;
      try reflexivity.
    rewrite (strip_prefix_ci_mem ":" "unique" input _ eq_refl Hp) in Hc.
    destruct (PyStr.isspace c) eqn:Hsp; [|reflexivity].
    cbn [PyStr.mem] in Hc.
    destruct (Ascii.eqb ":" c) eqn:Hcc.
    { apply Ascii.eqb_eq in Hcc. subst c. discriminate. }
    simpl in Hc. rewrite Ht; [reflexivity|].
    now rewrite lstrip_by_mem. }
  split; [exact Hm|].
  intros attribute_parser pieces d Hp Hd. unfold Attribute.from_string.
  rewrite Hm, Hp. cbn [bind]. now rewrite Hd.
Qed.

(** The theorem at the attribute line [index_no : int]. *)
Lemma colon_line_is_no_index_witness :
  PyStr.mem ":" "index_no : int" = true
  /\ Re.match_index "index_no : int" = false
  /\ Attribute.from_string AttributeParser.parseString "index_no : int"
     = Ok (Attribute.Build "index_no" (DJ_Type.Build "int" None false)
             (Some EmptyString) None).
Proof.
  split; [reflexivity|].
  destruct (colon_line_is_no_index "index_no : int" eq_refl) as [Hm Ha].
  split; [exact Hm|].
  exact (Ha AttributeParser.parseString
           {| piece_name := "index_no"; piece_type := "int";
              piece_default := None; piece_comment := EmptyString |}
           (DJ_Type.Build "int" None false) eq_refl eq_refl).
Defined.

(** ** Bodies and tables *)

Lemma rstrip_by_idem (p : ascii -> bool) (s : string) :
  PyStr.rstrip_by p (PyStr.rstrip_by p s) = PyStr.rstrip_by p s.
Proof.
  induction s as [|c s IH]; simpl; [reflexivity|].
  destruct (PyStr.rstrip_by p s) as [|d r] eqn:Hr.
  - destruct (p c) eqn:Hc; simpl; [reflexivity|now rewrite Hc].
  - change (PyStr.rstrip_by p (String c (String d r)))
      with (match PyStr.rstrip_by p (String d r) with
            | EmptyString => if p c then EmptyString else String c EmptyString
            | r0 => String c r0
            end).
    now rewrite IH.
Qed.

(** What [rstrip] leaves begins as the string did. *)
Lemma rstrip_by_head (p : ascii -> bool) (c : ascii) (s : string) :
  p c = false ->
  exists r, PyStr.rstrip_by p (String c s) = String c r.
Proof.
  intros Hc. simpl. destruct (PyStr.rstrip_by p s) as [|d r].
  - rewrite Hc. now exists EmptyString.
  - now exists (String d r).
Qed.

Lemma lstrip_by_head (p : ascii -> bool) (s : string) :
  PyStr.lstrip_by p s = EmptyString
  \/ exists c r, PyStr.lstrip_by p s = String c r /\ p c = false.
Proof.
  induction s as [|c s IH]; simpl; [now left|].
  destruct (p c) eqn:Hc; [exact IH|]. right. now exists c, s.
Qed.

(** [s.strip().strip() == s.strip()] *)
Lemma strip_idem (s : string) : PyStr.strip (PyStr.strip s) = PyStr.strip s.
Proof.
  unfold PyStr.strip.
  destruct (lstrip_by_head PyStr.isspace s) as [->|(c & r & -> & Hc)].
  - reflexivity.
  - destruct (rstrip_by_head PyStr.isspace c r Hc) as [r' Hr].
    rewrite Hr. cbn [PyStr.lstrip_by]. rewrite Hc, <- Hr.
    apply rstrip_by_idem.
Qed.

(** The four kinds of lines the loop tells apart. *)
Lemma line_kinds (line : string) :
  (is_blank_line line = true /\ is_comment_line line = false
   /\ is_divider_line line = false /\ is_row_line line = false)
  \/ (is_blank_line line = false /\ is_comment_line line = true
      /\ is_divider_line line = false /\ is_row_line line = false)
  \/ (is_blank_line line = false /\ is_comment_line line = false
      /\ is_divider_line line = true /\ is_row_line line = false)
  \/ (is_blank_line line = false /\ is_comment_line line = false
      /\ is_divider_line line = false /\ is_row_line line = true
      /\ PyStr.startswith (PyStr.strip line) "#" = false
      /\ PyStr.contains "---" (PyStr.strip line) = false).
Proof.
  unfold is_row_line, is_divider_line, is_comment_line, is_blank_line.
  destruct (Nat.eqb (String.length (PyStr.strip line)) 0);
    destruct (PyStr.startswith (PyStr.strip line) "#");
    destruct (PyStr.contains "---" (PyStr.strip line)); simpl; tauto.
Qed.

Section Bodies.

Variable attribute_parser : string -> result Pieces.

Lemma loop_body_strip (st : Table.locals) (line : string) :
  Table.loop_body attribute_parser st (PyStr.strip line)
  = Table.loop_body attribute_parser st line.
Proof. unfold Table.loop_body. now rewrite strip_idem. Qed.

Lemma loop_significant_lines (st : Table.locals) (lines : list string) :
  Table.loop attribute_parser st (significant_lines lines)
  = Table.loop attribute_parser st lines.
Proof.
  unfold significant_lines. revert st.
  induction lines as [|line lines IH]; intros st; [reflexivity|].
  cbn [map filter Table.loop].
  destruct (Nat.eqb (String.length (PyStr.strip line)) 0) eqn:Hb.
  - cbn [negb]. rewrite (loop_body_blank attribute_parser st line Hb).
    cbn [bind]. apply IH.
  - cbn [negb Table.loop]. rewrite loop_body_strip.
    destruct (Table.loop_body attribute_parser st line); cbn [bind];
      [apply IH|reflexivity].
Qed.

(** X9. [from_definition] reads a body through its lines stripped of
    surrounding whitespace, the blank ones left out: two bodies that agree
    on these give the same result, table or exception. *)
Theorem from_definition_significant_lines (name definition definition' : string)
  (tier : option string) (lines lines' : list string) :
  PyStr.split definition LF = Ok lines ->
  PyStr.split definition' LF = Ok lines' ->
  significant_lines lines = significant_lines lines' ->
  Table.from_definition attribute_parser name definition tier
  = Table.from_definition attribute_parser name definition' tier.
Proof.
  intros Hs Hs' H.
  rewrite (from_definition_lines attribute_parser _ _ _ _ Hs).
  rewrite (from_definition_lines attribute_parser _ _ _ _ Hs').
  rewrite <- (loop_significant_lines Table.start lines).
  rewrite <- (loop_significant_lines Table.start lines').
  now rewrite H.
Qed.

(** *** The two sections *)


Lemma loop_body_row (st : Table.locals) (line : string) :
  is_row_line line = true ->
  Table.loop_body attribute_parser st line
  = (row <- parse_row attribute_parser line ;; Ok (Table.append_row st row)).
Proof.
  intros Hr.
  destruct (line_kinds line)
    as [(_ & _ & _ & H)|[(_ & _ & _ & H)|[(_ & _ & _ & H)
       |(Hb & _ & _ & _ & Hh & Hd)]]]; try congruence.
  unfold parse_row.
  destruct (PyStr.contains "->" (PyStr.strip line)) eqn:Ha.
  - rewrite (loop_body_dependency attribute_parser st line Hb Hh Hd Ha).
    now destruct (Dependency.from_string (PyStr.strip line)).
  - rewrite (loop_body_attribute attribute_parser st line Hb Hh Hd Ha).
    now destruct (Attribute.from_string attribute_parser (PyStr.strip line)).
Qed.

(** The rows the loop collects from [lines]: after the divider they all
    go to the attributes; before it, those before the first divider line
    go to the keys and those after it to the attributes. *)
Lemma loop_rows (st st' : Table.locals) (lines : list string) :
  Table.loop attribute_parser st lines = Ok st' ->
  if Table.passed_keys st
  then Table.l_keys st' = Table.l_keys st
       /\ Table.l_attrs st'
          = (Table.l_attrs st ++ rows_of attribute_parser lines)%list
  else Table.l_keys st'
       = (Table.l_keys st
          ++ rows_of attribute_parser (before_divider lines))%list
       /\ Table.l_attrs st'
          = (Table.l_attrs st
             ++ rows_of attribute_parser (after_divider lines))%list.
Proof.
  revert st. induction lines as [|line lines IH]; intros st H.
  - cbn in H. injection H as <-. cbn. rewrite !app_nil_r.
    now destruct (Table.passed_keys st).
  - cbn [Table.loop] in H.
    destruct (Table.loop_body attribute_parser st line) as [st1|e] eqn:H1;
      [|discriminate].
    cbn [bind] in H. specialize (IH st1 H).
    cbn [before_divider after_divider].
    destruct (line_kinds line)
      as [(Hb & Hc & Hd & Hr)|[(Hb & Hc & Hd & Hr)|[(Hb & Hc & Hd & Hr)
         |(Hb & Hc & Hd & Hr & _)]]]; rewrite Hd; cbn [rows_of]; rewrite Hr.
    + rewrite (loop_body_blank attribute_parser st line Hb) in H1.
      injection H1 as <-. exact IH.
    + rewrite (loop_body_comment attribute_parser st line Hc) in H1.
      destruct (Comment.from_string (PyStr.strip line)); [|discriminate].
      cbn [bind] in H1. injection H1 as <-.
      cbn [Table.passed_keys Table.l_keys Table.l_attrs] in IH. exact IH.
    + rewrite (loop_body_divider attribute_parser st line Hd) in H1.
      injection H1 as <-.
      cbn [Table.passed_keys Table.l_keys Table.l_attrs] in IH.
      destruct (Table.passed_keys st); [exact IH|].
      destruct IH as [-> ->]. now rewrite app_nil_r.
    + rewrite (loop_body_row st line Hr) in H1.
      destruct (parse_row attribute_parser line) as [row|e]; [|discriminate].
      cbn [bind] in H1. injection H1 as <-.
      unfold Table.append_row in IH.
      destruct (Table.passed_keys st);
        cbn [Table.passed_keys Table.l_keys Table.l_attrs] in IH;
        destruct IH as [-> ->]; now rewrite <- ?app_assoc.
Qed.

(** X10. The two sections of the table returned: the keys are the rows of
    the lines before the first divider line, the attributes the rows of
    all the lines after it, each in the order of the lines; a further
    divider line changes nothing. Stated for a body whose lines all parse
    and a tier of [TIERS]. *)
Theorem from_definition_sections (name definition tier : string)
  (lines : list string) :
  PyStr.split definition LF = Ok lines ->
  Forall (row_ok attribute_parser) lines ->
  literal_mem tier TIERS = true ->
  exists comment : option Comment.t,
    Table.from_definition attribute_parser name definition (Some tier)
    = Ok (Table.Build name tier comment
            (rows_of attribute_parser (before_divider lines))
            (Some (rows_of attribute_parser (after_divider lines)))).
Proof.
  intros Hs Hl Ht.
  destruct (from_definition_returns attribute_parser name definition tier
              lines Hs Hl Ht) as (st & Hst & ->).
  apply loop_rows in Hst. cbn in Hst. destruct Hst as [-> ->].
  now exists (Table.l_comment st).
Qed.

(** X11. The tier is validated last, by the constructor: with a tier
    that is none of [TIERS] ([Part] is none of them) [from_definition]
    returns no table, and raises pydantic's error for [tier] when every
    line of the body parses. *)
Theorem from_definition_unknown_tier (name definition tier : string) :
  literal_mem tier TIERS = false ->
  is_ok (Table.from_definition attribute_parser name definition (Some tier))
  = false
  /\ forall lines : list string,
       PyStr.split definition LF = Ok lines ->
       Forall (row_ok attribute_parser) lines ->
       Table.from_definition attribute_parser name definition (Some tier)
       = Raise (ValidationError "Table" "tier").
Proof.
  intros Ht. split.
  - unfold Table.from_definition. cbn [PyStr.split LF bind].
    destruct (Table.loop attribute_parser Table.start _); [|reflexivity].
    cbn [bind]. unfold Table.init. now rewrite Ht.
  - intros lines Hs Hl.
    rewrite (from_definition_lines attribute_parser _ _ _ _ Hs).
    destruct (loop_returns attribute_parser Table.start lines Hl) as [st ->].
    cbn [bind]. unfold Table.init. now rewrite Ht.
Qed.

(** X12. A table that [from_definition] returns is rendered in both
    dialects: [make] returns a text for [python] and for [matlab]. *)
Theorem from_definition_then_make (name definition : string)
  (tier : option string) (t : Table.t) :
  Table.from_definition attribute_parser name definition tier = Ok t ->
  (exists text, Table.make t "python" = Ok (Some text))
  /\ (exists text, Table.make t "matlab" = Ok (Some text)).
Proof.
  unfold Table.from_definition. cbn [PyStr.split LF bind].
  destruct (Table.loop attribute_parser Table.start _) as [st|e];
    [|discriminate].
  cbn [bind]. unfold Table.init.
  destruct (literal_mem _ TIERS); [|discriminate].
  intros [= <-]. split; eexists; reflexivity.
Qed.

End Bodies.

(** X13. [make] needs the attributes to be a list: for a table built with
    [attributes] left at its default [None], [make] raises [TypeError] in
    both dialects; with a list, it returns a text. *)
Theorem make_needs_attributes (self : Table.t) (lang : string) :
  String.eqb lang "python" || String.eqb (PyStr.lower lang) "matlab" = true ->
  match Table.attributes self with
  | None =>
      Table.make self lang
      = Raise (TypeError "'NoneType' object is not iterable")
  | Some _ => exists text, Table.make self lang = Ok (Some text)
  end.
Proof.
  intros H. unfold Table.make, Table._make_python, Table._make_matlab.
  destruct (Table.attributes self) as [attrs|];
    destruct (String.eqb lang "python");
    try (eexists; reflexivity); try reflexivity;
    simpl in H; rewrite H; try (eexists; reflexivity); reflexivity.
Qed.

(** ** Examples of the further properties *)

(** The theorem at a body and the same body indented, with blank lines. *)
Lemma from_definition_significant_lines_witness :
  PyStr.split plain_body LF
  = Ok ["# note"; "-> Session"; "---"; "-> Subject"]
  /\ PyStr.split indented_body LF
     = Ok ["   # note  "; EmptyString; "   -> Session"; "  --- "; "   ";
           "   -> Subject"]
  /\ significant_lines ["# note"; "-> Session"; "---"; "-> Subject"]
     = significant_lines
         ["   # note  "; EmptyString; "   -> Session"; "  --- "; "   ";
          "   -> Subject"]
  /\ Table.from_definition AttributeParser.parseString "Scan" plain_body
       (Some "Manual")
     = Table.from_definition AttributeParser.parseString "Scan" indented_body
         (Some "Manual").
Proof.
  split; [reflexivity|]. split; [reflexivity|]. split; [reflexivity|].
  apply (from_definition_significant_lines AttributeParser.parseString "Scan"
           plain_body indented_body (Some "Manual")
           ["# note"; "-> Session"; "---"; "-> Subject"]
           ["   # note  "; EmptyString; "   -> Session"; "  --- "; "   ";
            "   -> Subject"]); reflexivity.
Defined.

(** The theorem at a body with two divider lines: the row after the
    second one is an attribute. *)
Lemma from_definition_sections_witness :
  PyStr.split two_dividers_body LF
  = Ok ["-> Session"; "---"; "-> Subject"; "---"; "-> Probe"]
  /\ Forall (row_ok AttributeParser.parseString)
       ["-> Session"; "---"; "-> Subject"; "---"; "-> Probe"]
  /\ literal_mem "Manual" TIERS = true
  /\ rows_of AttributeParser.parseString
       (before_divider ["-> Session"; "---"; "-> Subject"; "---"; "-> Probe"])
     = [Table.RowDependency (Dependency.Build "Session")]
  /\ rows_of AttributeParser.parseString
       (after_divider ["-> Session"; "---"; "-> Subject"; "---"; "-> Probe"])
     = [Table.RowDependency (Dependency.Build "Subject");
        Table.RowDependency (Dependency.Build "Probe")]
  /\ exists comment : option Comment.t,
       Table.from_definition AttributeParser.parseString "Scan"
         two_dividers_body (Some "Manual")
       = Ok (Table.Build "Scan" "Manual" comment
               (rows_of AttributeParser.parseString
                  (before_divider
                     ["-> Session"; "---"; "-> Subject"; "---"; "-> Probe"]))
               (Some
                  (rows_of AttributeParser.parseString
                     (after_divider
                        ["-> Session"; "---"; "-> Subject"; "---";
                         "-> Probe"])))).
Proof.
  assert (Hl : Forall (row_ok AttributeParser.parseString)
                 ["-> Session"; "---"; "-> Subject"; "---"; "-> Probe"])
    by (repeat constructor).
  split; [reflexivity|]. split; [exact Hl|]. split; [reflexivity|].
  split; [reflexivity|]. split; [reflexivity|].
  apply (from_definition_sections AttributeParser.parseString "Scan"
           two_dividers_body "Manual"
           ["-> Session"; "---"; "-> Subject"; "---"; "-> Probe"]);
    [reflexivity|exact Hl|reflexivity].
Defined.

(** The theorem at the tier [Part]. *)
Lemma from_definition_unknown_tier_witness :
  literal_mem "Part" TIERS = false
  /\ is_ok (Table.from_definition AttributeParser.parseString "Scan"
              plain_body (Some "Part")) = false
  /\ forall lines : list string,
       PyStr.split plain_body LF = Ok lines ->
       Forall (row_ok AttributeParser.parseString) lines ->
       Table.from_definition AttributeParser.parseString "Scan" plain_body
         (Some "Part")
       = Raise (ValidationError "Table" "tier").
Proof.
  split; [reflexivity|].
  apply (from_definition_unknown_tier AttributeParser.parseString "Scan"
           plain_body "Part"). reflexivity.
Defined.

(** The theorem at the table of [plain_body]. *)
Lemma from_definition_then_make_witness :
  Table.from_definition AttributeParser.parseString "Scan" plain_body
    (Some "Manual")
  = Ok (Table.Build "Scan" "Manual" (Some (Comment.Build "note"))
          [Table.RowDependency (Dependency.Build "Session")]
          (Some [Table.RowDependency (Dependency.Build "Subject")]))
  /\ (exists text,
        Table.make
          (Table.Build "Scan" "Manual" (Some (Comment.Build "note"))
             [Table.RowDependency (Dependency.Build "Session")]
             (Some [Table.RowDependency (Dependency.Build "Subject")]))
          "python" = Ok (Some text))
  /\ (exists text,
        Table.make
          (Table.Build "Scan" "Manual" (Some (Comment.Build "note"))
             [Table.RowDependency (Dependency.Build "Session")]
             (Some [Table.RowDependency (Dependency.Build "Subject")]))
          "matlab" = Ok (Some text)).
Proof.
  split; [reflexivity|].
  apply (from_definition_then_make AttributeParser.parseString "Scan"
           plain_body (Some "Manual")). reflexivity.
Defined.

(** The theorem at a table built without attributes, in the dialect
    [Matlab]. *)
Lemma make_needs_attributes_witness :
  String.eqb "Matlab" "python" || String.eqb (PyStr.lower "Matlab") "matlab"
  = true
  /\ Table.make (Table.Build "Scan" "Manual" None [] None) "Matlab"
     = Raise (TypeError "'NoneType' object is not iterable").
Proof.
  split; [reflexivity|].
  apply (make_needs_attributes (Table.Build "Scan" "Manual" None [] None)
           "Matlab"). reflexivity.
Defined.

(** ** Tokens without parentheses, single arguments, whitespace *)

Lemma parameterized_go_absent (s datatype : string) :
  PyStr.mem "(" s = false -> Parse.parameterized_go datatype s = None.
Proof.
  revert datatype. induction s as [|c s IH]; intros datatype H;
    [reflexivity|].
  cbn [PyStr.mem] in H. apply orb_false_elim in H as [Hc Hs].
  cbn [Parse.parameterized_go]. rewrite Ascii.eqb_sym, Hc. now apply IH.
Qed.

Lemma parse_parameterized_absent (s : string) :
  PyStr.mem "(" s = false -> Parse.parse_parameterized s = None.
Proof.
  destruct s as [|c s]; [reflexivity|]. cbn [PyStr.mem]. intros H.
  apply orb_false_elim in H as [_ Hs]. now apply parameterized_go_absent.
Qed.

Lemma strip_mem (c : ascii) (s : string) :
  PyStr.isspace c = false -> PyStr.mem c (PyStr.strip s) = PyStr.mem c s.
Proof.
  intros Hc. unfold PyStr.strip.
  rewrite <- (lstrip_by_mem PyStr.isspace c s Hc).
  destruct (PyStr.mem c (PyStr.lstrip_by PyStr.isspace s)) eqn:H.
  - now apply rstrip_by_keeps.
  - now apply rstrip_by_absent.
Qed.

(** X14. A token without parenthesis, [@] and [unsigned] is a type
    exactly when, stripped, it is one of [DATATYPES]: [from_string] returns
    the type of that keyword, without arguments and signed, and raises
    pydantic's error for [datatype] on every other such token. *)
Theorem from_string_plain_token (input : string) :
  PyStr.mem "(" input = false ->
  PyStr.mem "@" input = false ->
  PyStr.contains "unsigned" input = false ->
  DJ_Type.from_string input
  = if literal_mem (PyStr.strip input) DATATYPES
    then Ok (DJ_Type.Build (PyStr.strip input) None false)
    else Raise (ValidationError "DJ_Type" "datatype").
Proof.
  intros Hp Hat Hu. unfold DJ_Type.from_string. cbv zeta.
  rewrite Hu, contains_char, Hat.
  rewrite parse_parameterized_absent
    by (rewrite strip_mem; [exact Hp|reflexivity]).
  unfold DJ_Type.init.
  now destruct (literal_mem (PyStr.strip input) DATATYPES).
Qed.

(** The theorem at the token [bigint], which is none of [DATATYPES]. *)
Lemma from_string_plain_token_witness :
  PyStr.mem "(" " bigint" = false
  /\ PyStr.mem "@" " bigint" = false
  /\ PyStr.contains "unsigned" " bigint" = false
  /\ DJ_Type.from_string " bigint"
     = if literal_mem (PyStr.strip " bigint") DATATYPES
       then Ok (DJ_Type.Build (PyStr.strip " bigint") None false)
       else Raise (ValidationError "DJ_Type" "datatype").
Proof.
  split; [reflexivity|]. split; [reflexivity|]. split; [reflexivity|].
  apply (from_string_plain_token " bigint"); reflexivity.
Defined.

(** X15. A single argument between parentheses has to read as an
    integer: the token of a keyword and one argument without comma is
    parsed to the type with that integer, and refused with pydantic's error
    for [args] when [int] does not read the argument, as for an [enum] of
    one value. *)
Theorem from_string_single_argument (kind s : string) (u : bool) :
  In kind DATATYPES ->
  s <> EmptyString ->
  PyStr.mem "@" s = false ->
  PyStr.contains "unsigned" s = false ->
  PyStr.mem "," s = false ->
  DJ_Type.from_string
    (if u then (kind ++ "(" ++ s ++ ")") ++ " unsigned"
     else kind ++ "(" ++ s ++ ")")
  = match PyStr.int_of_str s with
    | Some n => Ok (DJ_Type.Build kind (Some (ArgInt n)) u)
    | None => Raise (ValidationError "DJ_Type" "args")
    end.
Proof.
  intros Hk Hs Hat Hu Hc.
  rewrite (from_string_parenthesized kind s u Hk Hs Hat Hu).
  rewrite contains_char, Hc. unfold DJ_Type.init, validate_args.
  apply literal_mem_In in Hk. rewrite Hk.
  now destruct (PyStr.int_of_str s).
Qed.

(** The theorem at the enum of the one value ['a']. *)
Lemma from_string_single_argument_witness :
  In "enum" DATATYPES
  /\ "'a'" <> EmptyString
  /\ PyStr.mem "@" "'a'" = false
  /\ PyStr.contains "unsigned" "'a'" = false
  /\ PyStr.mem "," "'a'" = false
  /\ DJ_Type.from_string "enum('a')"
     = Raise (ValidationError "DJ_Type" "args").
Proof.
  assert (Hk : In "enum" DATATYPES) by (apply literal_mem_In; reflexivity).
  assert (Hs : "'a'" <> EmptyString) by discriminate.
  split; [exact Hk|]. split; [exact Hs|]. split; [reflexivity|].
  split; [reflexivity|]. split; [reflexivity|].
  exact (from_string_single_argument "enum" "'a'" false Hk Hs
           eq_refl eq_refl eq_refl).
Defined.

Lemma prefix_rstrip_by (p : ascii -> bool) (sub s : string) :
  all_chars (fun c => negb (p c)) sub = true ->
  String.prefix sub (PyStr.rstrip_by p s) = String.prefix sub s.
Proof.
  revert s. induction sub as [|a sub IH]; intros s H.
  - now rewrite !prefix_empty.
  - simpl in H. apply andb_true_iff in H as [Ha Hs].
    apply negb_true_iff in Ha.
    destruct s as [|c s]; [reflexivity|].
    cbn [String.prefix]. destruct (ascii_dec a c) as [<-|Hn].
    + cbn [PyStr.rstrip_by]. rewrite <- (IH s Hs).
      destruct (PyStr.rstrip_by p s) as [|d r].
      * rewrite Ha. cbn [String.prefix].
        destruct (ascii_dec a a); [reflexivity|congruence].
      * cbn [String.prefix].
        destruct (ascii_dec a a); [reflexivity|congruence].
    + cbn [PyStr.rstrip_by].
      destruct (PyStr.rstrip_by p s) as [|d r];
        [destruct (p c)|]; cbn [String.prefix]; try reflexivity;
        destruct (ascii_dec a c); congruence.
Qed.

Lemma contains_rstrip_by (p : ascii -> bool) (sub s : string) :
  all_chars (fun c => negb (p c)) sub = true ->
  sub <> EmptyString ->
  PyStr.contains sub (PyStr.rstrip_by p s) = PyStr.contains sub s.
Proof.
  intros H Hn.
  assert (He : PyStr.contains sub EmptyString = false)
    by (destruct sub; [congruence|reflexivity]).
  induction s as [|c s IH]; [reflexivity|].
  cbn [PyStr.contains]. rewrite <- IH, <- (prefix_rstrip_by p sub _ H).
  cbn [PyStr.rstrip_by].
  destruct (PyStr.rstrip_by p s) as [|d r] eqn:Hr.
  - destruct (p c).
    + rewrite He. destruct sub; [congruence|reflexivity].
    + cbn [PyStr.contains]. reflexivity.
  - cbn [PyStr.contains]. reflexivity.
Qed.

Lemma contains_lstrip_by (p : ascii -> bool) (a : ascii) (sub s : string) :
  p a = false ->
  PyStr.contains (String a sub) (PyStr.lstrip_by p s)
  = PyStr.contains (String a sub) s.
Proof.
  intros Ha. induction s as [|c s IH]; [reflexivity|].
  cbn [PyStr.lstrip_by]. destruct (p c) eqn:Hc; [|reflexivity].
  rewrite IH. cbn [PyStr.contains String.prefix].
  destruct (ascii_dec a c) as [->|_]; [congruence|reflexivity].
Qed.

Lemma strip_contains_unsigned (s : string) :
  PyStr.contains "unsigned" (PyStr.strip s) = PyStr.contains "unsigned" s.
Proof.
  unfold PyStr.strip.
  rewrite contains_rstrip_by by (reflexivity || discriminate).
  now apply contains_lstrip_by.
Qed.

(** X16. Whitespace around a type token without [unsigned] and [@]
    does not count: the token and the token stripped have the same
    parse. *)
Theorem from_string_strip (input : string) :
  PyStr.contains "unsigned" input = false ->
  PyStr.mem "@" input = false ->
  DJ_Type.from_string (PyStr.strip input) = DJ_Type.from_string input.
Proof.
  intros Hu Hat. unfold DJ_Type.from_string. cbv zeta.
  rewrite strip_contains_unsigned, Hu, !contains_char.
  rewrite (strip_mem "@" input eq_refl), Hat, strip_idem. reflexivity.
Qed.

(** The theorem at [varchar(20)] with whitespace around it. *)
Lemma from_string_strip_witness :
  PyStr.contains "unsigned" "  varchar(20) " = false
  /\ PyStr.mem "@" "  varchar(20) " = false
  /\ PyStr.strip "  varchar(20) " = "varchar(20)"
  /\ DJ_Type.from_string (PyStr.strip "  varchar(20) ")
     = DJ_Type.from_string "  varchar(20) ".
Proof.
  split; [reflexivity|]. split; [reflexivity|]. split; [reflexivity|].
  apply (from_string_strip "  varchar(20) "); reflexivity.
Defined.

(** ** What the parsers return *)

Lemma attribute_from_string_inv
  (attribute_parser : string -> result Pieces) (input : string)
  (a : Attribute.t) :
  Attribute.from_string attribute_parser input = Ok a ->
  Re.match_index input = false
  /\ well_formed_row (Table.RowAttribute a)
  /\ exists pieces : Pieces,
       attribute_parser (input ++ "#") = Ok pieces
       /\ Attribute.name a = piece_name pieces
       /\ Attribute.default a = piece_default pieces
       /\ DJ_Type.from_string (piece_type pieces) = Ok (Attribute.datatype a)
       /\ Attribute.comment a
          = Some (PyStr.strip (PyStr.rstrip "#" (piece_comment pieces))).
Proof.
  unfold Attribute.from_string.
  destruct (Re.match_index input); [discriminate|].
  destruct (attribute_parser (input ++ "#")) as [pieces|e]; [|discriminate].
  cbn [bind].
  destruct (DJ_Type.from_string (piece_type pieces)) as [d|e] eqn:Hd;
    [|discriminate].
  cbn [bind]. intros [= <-]. split; [reflexivity|]. split.
  - cbn. split; [apply (from_string_inv _ _ Hd)|].
    eexists. split; [reflexivity|apply strip_idem].
  - exists pieces. now repeat split.
Qed.

(** X17. An attribute that [Attribute.from_string] returns comes from a
    line that is no index declaration and that the attribute parser
    accepted: it has the name and the default the parser found, the type
    that the parser's type text parses to, with a keyword of [DATATYPES],
    and as its comment the parser's comment text without the appended [#]
    and without whitespace around it. *)
Theorem attribute_from_string_returns
  (attribute_parser : string -> result Pieces) (input : string)
  (a : Attribute.t) :
  Attribute.from_string attribute_parser input = Ok a ->
  Re.match_index input = false
  /\ In (DJ_Type.datatype (Attribute.datatype a)) DATATYPES
  /\ exists pieces : Pieces,
       attribute_parser (input ++ "#") = Ok pieces
       /\ Attribute.name a = piece_name pieces
       /\ Attribute.default a = piece_default pieces
       /\ DJ_Type.from_string (piece_type pieces) = Ok (Attribute.datatype a)
       /\ Attribute.comment a
          = Some (PyStr.strip (PyStr.rstrip "#" (piece_comment pieces)))
       /\ PyStr.strip (PyStr.strip (PyStr.rstrip "#" (piece_comment pieces)))
          = PyStr.strip (PyStr.rstrip "#" (piece_comment pieces)).
Proof.
  intros H.
  destruct (attribute_from_string_inv attribute_parser input a H)
    as (Hm & [Hk _] & pieces & Hp & Hn & Hd & Ht & Hc).
  split; [exact Hm|]. split; [exact Hk|].
  exists pieces. repeat split; try assumption. apply strip_idem.
Qed.

(** The theorem at the line [age = 0 : int # years old]. *)
Lemma attribute_from_string_returns_witness :
  Attribute.from_string AttributeParser.parseString
    "age = 0 : int # years old"
  = Ok (Attribute.Build "age" (DJ_Type.Build "int" None false)
          (Some "years old") (Some "0"))
  /\ Re.match_index "age = 0 : int # years old" = false
  /\ In "int" DATATYPES.
Proof.
  split; [reflexivity|].
  destruct (attribute_from_string_returns AttributeParser.parseString
              "age = 0 : int # years old"
              (Attribute.Build "age" (DJ_Type.Build "int" None false)
                 (Some "years old") (Some "0")) eq_refl) as (Hm & Hk & _).
  now split.
Defined.

Section Returned.

Variable attribute_parser : string -> result Pieces.

Lemma parse_row_well_formed (line : string) (row : Table.Row) :
  parse_row attribute_parser line = Ok row -> well_formed_row row.
Proof.
  unfold parse_row.
  destruct (PyStr.contains "->" (PyStr.strip line)).
  - destruct (Dependency.from_string (PyStr.strip line)) as [d|e] eqn:Hd;
      [|discriminate].
    cbn [bind]. intros [= <-].
    apply (dependency_from_string_inv _ _ Hd).
  - destruct (Attribute.from_string attribute_parser (PyStr.strip line))
      as [a|e] eqn:Ha; [|discriminate].
    cbn [bind]. intros [= <-].
    apply (attribute_from_string_inv _ _ _ Ha).
Qed.

Lemma loop_body_well_formed (st st' : Table.locals) (line : string) :
  well_formed_locals st ->
  Table.loop_body attribute_parser st line = Ok st' ->
  well_formed_locals st'.
Proof.
  intros (Hc & Hk & Ha) H.
  destruct (line_kinds line)
    as [(Hb & _)|[(_ & Hcl & _)|[(_ & _ & Hd & _)|(_ & _ & _ & Hr & _)]]].
  - rewrite (loop_body_blank attribute_parser st line Hb) in H.
    injection H as <-. now repeat split.
  - rewrite (loop_body_comment attribute_parser st line Hcl) in H.
    destruct (Comment.from_string (PyStr.strip line)) as [c|e] eqn:Hp;
      [|discriminate].
    cbn [bind] in H. injection H as <-. repeat split; try assumption.
    cbn. apply (comment_from_string_inv _ _ Hp).
  - rewrite (loop_body_divider attribute_parser st line Hd) in H.
    injection H as <-. now repeat split.
  - rewrite (loop_body_row attribute_parser st line Hr) in H.
    destruct (parse_row attribute_parser line) as [row|e] eqn:Hp;
      [|discriminate].
    cbn [bind] in H. injection H as <-.
    apply parse_row_well_formed in Hp. unfold Table.append_row.
    destruct (Table.passed_keys st); repeat split; cbn; try assumption;
      apply Forall_app; split; try assumption; now constructor.
Qed.

Lemma loop_well_formed (st st' : Table.locals) (lines : list string) :
  well_formed_locals st ->
  Table.loop attribute_parser st lines = Ok st' ->
  well_formed_locals st'.
Proof.
  revert st. induction lines as [|line lines IH]; intros st Hw H.
  - cbn in H. now injection H as <-.
  - cbn [Table.loop] in H.
    destruct (Table.loop_body attribute_parser st line) as [st1|e] eqn:H1;
      [|discriminate].
    cbn [bind] in H.
    exact (IH st1 (loop_body_well_formed st st1 line Hw H1) H).
Qed.

(** X18. A table that [from_definition] returns bears the name it was
    asked for and a tier of [TIERS]; its comment, if any, has a text; its
    attributes are a list; and each of its rows is well formed: a
    dependency has a name, an attribute a type with a keyword of
    [DATATYPES] and a comment without whitespace around it. *)
Theorem from_definition_returns_well_formed (name definition : string)
  (tier : option string) (t : Table.t) :
  Table.from_definition attribute_parser name definition tier = Ok t ->
  Table.name t = name
  /\ In (Table.tier t) TIERS
  /\ tier = Some (Table.tier t)
  /\ well_formed_comment (Table.comment t)
  /\ Forall well_formed_row (Table.keys t)
  /\ exists attrs,
       Table.attributes t = Some attrs /\ Forall well_formed_row attrs.
Proof.
  unfold Table.from_definition. cbn [PyStr.split LF bind].
  destruct (Table.loop attribute_parser Table.start _) as [st|e] eqn:Hl;
    [|discriminate].
  cbn [bind]. unfold Table.init.
  destruct (literal_mem _ TIERS) eqn:Ht; [|discriminate].
  intros [= <-]. cbn.
  assert (Hw : well_formed_locals st).
  { refine (loop_well_formed Table.start st _ _ Hl).
    repeat split; constructor. }
  destruct Hw as (Hc & Hk & Ha).
  apply literal_mem_In in Ht. destruct tier as [tier|].
  - repeat split; try assumption. now exists (Table.l_attrs st).
  - exfalso. revert Ht. clear. cbn. intuition discriminate.
Qed.

End Returned.

(** The theorem at the table of [plain_body]. *)
Lemma from_definition_returns_well_formed_witness :
  Table.from_definition AttributeParser.parseString "Scan" plain_body
    (Some "Manual")
  = Ok (Table.Build "Scan" "Manual" (Some (Comment.Build "note"))
          [Table.RowDependency (Dependency.Build "Session")]
          (Some [Table.RowDependency (Dependency.Build "Subject")]))
  /\ In "Manual" TIERS
  /\ Forall well_formed_row
       [Table.RowDependency (Dependency.Build "Session")].
Proof.
  split; [reflexivity|].
  destruct (from_definition_returns_well_formed AttributeParser.parseString
              "Scan" plain_body (Some "Manual")
              (Table.Build "Scan" "Manual" (Some (Comment.Build "note"))
                 [Table.RowDependency (Dependency.Build "Session")]
                 (Some [Table.RowDependency (Dependency.Build "Subject")]))
              eq_refl) as (_ & Ht & _ & _ & Hk & _).
  now split.
Defined.

(** ** Index lines in a body *)





(** [int()] refuses the separators that [strip()] strips. *)
Lemma int_of_str_whitespace :
  PyStr.strip (String "028" "5") = "5"
  /\ PyStr.int_of_str (String "028" "5") = None
  /\ PyStr.int_of_str (" 5" ++ LF) = Some 5%Z
  /\ PyStr.int_of_str (String "160" "5") = Some 5%Z
  /\ DJ_Type.from_string ("char(" ++ String "028" "5)")
     = Raise (ValidationError "DJ_Type" "args").
Proof. repeat split; vm_compute; reflexivity. Qed.
